(** * Streaming vs. theatrical analytics: the collection and enrichment scripts

    A shallow embedding of [scripts/collect_theatrical_data.py],
    [scripts/add_streaming_data.py] and the credential check of
    [scripts/test_api_connection.py], with the properties of their
    specification stated and settled against the embedded code.

    Layout: Python values and the operations the scripts apply to them;
    the three scripts, each in a module named after its role; then the
    lemmas, grouped by the function they are about. *)

From Stdlib Require Import List String Ascii Bool ZArith QArith Lia Permutation.
From Stdlib Require Import Floats.SpecFloat.
Import ListNotations.

Set Warnings "-register-all".

Local Open Scope string_scope.
Local Open Scope Z_scope.
Local Open Scope list_scope.

(* ================================================================== *)
(** * Python values *)
(* ================================================================== *)

(** IEEE-754 binary64, the [float] of Python and the [float64] of numpy,
    through the executable specification of the standard library. *)
Module F64.
Definition prec : Z := 53.
Definition emax : Z := 1024.

Definition t := spec_float.

(** Conversion of an integer, rounded to nearest-even. *)
Definition of_Z (z : Z) : t := binary_normalize prec emax z 0 false.

Definition mul : t -> t -> t := SFmul prec emax.
Definition div : t -> t -> t := SFdiv prec emax.
Definition ltb : t -> t -> bool := SFltb.
Definition leb : t -> t -> bool := SFleb.

Definition is_zero (f : t) : bool :=
  match f with S754_zero _ => true | _ => false end.

(** The rational a float denotes ([None] for the infinities and NaN). *)
Definition to_Q (f : t) : option Q :=
  match f with
  | S754_zero _ => Some 0%Q
  | S754_finite s m e =>
      let n := if s then Z.neg m else Z.pos m in
      Some (match e with
            | Z0 => inject_Z n
            | Z.pos p => inject_Z (n * Z.pow_pos 2 p)
            | Z.neg p => Qmake n (Pos.pow 2 p)
            end)
  | _ => None
  end.
End F64.

(** A Python number: an [int] (also numpy's integers) or a float. *)
Inductive num :=
| NInt (z : Z)
| NFloat (f : F64.t).

(** The values that reach the scripts: decoded JSON, and the cells of a
    row.  A [dict] keeps its items in insertion order; keys are strings. *)
Inductive value :=
| VNone
| VBool (b : bool)
| VNum  (n : num)
| VStr  (s : string)
| VList (l : list value)
| VDict (d : list (string * value)).

Definition dict := list (string * value).

(** The exceptions the scripts can meet outside of [requests]. *)
Inductive exn :=
| KeyError (k : string)
| IndexError
| TypeError
| AttributeError.

Inductive result (A : Type) :=
| Ok (a : A)
| Raise (e : exn).
Arguments Ok {A} a.
Arguments Raise {A} e.

Definition rbind {A B} (r : result A) (k : A -> result B) : result B :=
  match r with
  | Ok a => k a
  | Raise e => Raise e
  end.

Declare Scope result_scope.
Delimit Scope result_scope with result.
Notation "x <- c ;; k" := (rbind c (fun x => k))
  (at level 61, c at next level, right associativity) : result_scope.

Fixpoint mapM {A B} (f : A -> result B) (l : list A) : result (list B) :=
  match l with
  | [] => Ok []
  | x :: t =>
      (y <- f x ;;
       ys <- mapM f t ;;
       Ok (y :: ys))%result
  end.

Module Py.

(** ** Numbers *)

Definition int (z : Z) : value := VNum (NInt z).

(** [n > c] and [n < c] against an integer literal [c].  The literals of
    the scripts (0, 10_000_000, 50_000_000) are exact in binary64, so the
    comparison with a float is the IEEE one; it is false on NaN. *)
Definition num_gt (n : num) (c : Z) : bool :=
  match n with
  | NInt z => c <? z
  | NFloat f => F64.ltb (F64.of_Z c) f
  end.

Definition num_lt (n : num) (c : Z) : bool :=
  match n with
  | NInt z => z <? c
  | NFloat f => F64.ltb f (F64.of_Z c)
  end.

(** [c >= n], the test of the page loop. *)
Definition num_le (n : num) (c : Z) : bool :=
  match n with
  | NInt z => z <=? c
  | NFloat f => F64.leb f (F64.of_Z c)
  end.

(** A [bool] is an [int] in comparisons. *)
Definition as_num (v : value) : result num :=
  match v with
  | VNum n => Ok n
  | VBool b => Ok (NInt (if b then 1 else 0))
  | _ => Raise TypeError
  end.

(** [v > c], [v < c], [c >= v] *)
Definition gt (v : value) (c : Z) : result bool :=
  (n <- as_num v ;; Ok (num_gt n c))%result.
Definition lt (v : value) (c : Z) : result bool :=
  (n <- as_num v ;; Ok (num_lt n c))%result.
Definition int_ge (c : Z) (v : value) : result bool :=
  (n <- as_num v ;; Ok (num_le n c))%result.

(** ** Truth value *)

Definition truthy (v : value) : bool :=
  match v with
  | VNone => false
  | VBool b => b
  | VNum (NInt z) => negb (z =? 0)
  | VNum (NFloat f) => negb (F64.is_zero f)
  | VStr s => negb (s =? "")%string
  | VList l => match l with [] => false | _ => true end
  | VDict d => match d with [] => false | _ => true end
  end.

(** ** Strings *)

(** [needle in hay] for two strings: [needle] occurs in [hay]. *)
Fixpoint contains (needle hay : string) : bool :=
  String.prefix needle hay
  || match hay with
     | EmptyString => false
     | String _ hay' => contains needle hay'
     end.

Definition chars (s : string) : list value :=
  map (fun c => VStr (String c EmptyString)) (list_ascii_of_string s).

Fixpoint take (n : nat) (s : string) : string :=
  match n, s with
  | S n', String c s' => String c (take n' s')
  | _, _ => EmptyString
  end.

(** ** Dictionaries *)

Fixpoint lookup (k : string) (d : dict) : option value :=
  match d with
  | [] => None
  | (k', v) :: d' => if (k =? k')%string then Some v else lookup k d'
  end.

Definition has_key (k : string) (d : dict) : bool :=
  match lookup k d with Some _ => true | None => false end.

(** [d[k] = v]: the item is replaced in place, or added at the end. *)
Fixpoint set (k : string) (v : value) (d : dict) : dict :=
  match d with
  | [] => [(k, v)]
  | (k', v') :: d' =>
      if (k =? k')%string then (k, v) :: d' else (k', v') :: set k v d'
  end.

(** [d.get(k, default)] on a dict, or on a row of a table. *)
Definition dict_get (d : dict) (k : string) (default : value) : value :=
  match lookup k d with Some v => v | None => default end.

(** [v.get(k, default)]: only a dict has the method. *)
Definition get (v : value) (k : string) (default : value) : result value :=
  match v with
  | VDict d => Ok (dict_get d k default)
  | _ => Raise AttributeError
  end.

(** [v[k]] with a string key. *)
Definition getitem (v : value) (k : string) : result value :=
  match v with
  | VDict d =>
      match lookup k d with
      | Some x => Ok x
      | None => Raise (KeyError k)
      end
  | _ => Raise TypeError
  end.

(** [v[0]] *)
Definition first (v : value) : result value :=
  match v with
  | VList (x :: _) => Ok x
  | VList [] => Raise IndexError
  | VStr (String c _) => Ok (VStr (String c EmptyString))
  | VStr EmptyString => Raise IndexError
  | VDict _ => Raise (KeyError "0")
  | _ => Raise TypeError
  end.

(** [v[:3]] *)
Definition take3 (v : value) : result value :=
  match v with
  | VList l => Ok (VList (firstn 3 l))
  | VStr s => Ok (VStr (take 3 s))
  | _ => Raise TypeError
  end.

(** [k in v] for a string [k]: a key of a dict, an element of a list, a
    substring of a string; the other values are not containers. *)
Definition is_str (k : string) (v : value) : bool :=
  match v with VStr s => (k =? s)%string | _ => false end.

Definition is_in (k : string) (v : value) : result bool :=
  match v with
  | VDict d => Ok (has_key k d)
  | VList l => Ok (existsb (is_str k) l)
  | VStr s => Ok (contains k s)
  | _ => Raise TypeError
  end.

(** [for x in v]: the elements of a list, the keys of a dict, the
    characters of a string. *)
Definition iter (v : value) : result (list value) :=
  match v with
  | VList l => Ok l
  | VDict d => Ok (map (fun kv => VStr (fst kv)) d)
  | VStr s => Ok (chars s)
  | _ => Raise TypeError
  end.

(** [len(l)] *)
Definition len {A} (l : list A) : Z := Z.of_nat (Datatypes.length l).

(** [any(f(p) for p in l)]: stops at the first true element, so that an
    element after it is not evaluated. *)
Fixpoint any (f : value -> result bool) (l : list value) : result bool :=
  match l with
  | [] => Ok false
  | p :: l' =>
      (b <- f p ;;
       if b then Ok true else any f l')%result
  end.

(** [a or b] on two tests, [b] evaluated only when [a] is false. *)
Definition or_else (a b : result bool) : result bool :=
  (x <- a ;; if x then Ok true else b)%result.

(** [range(lo, hi)] *)
Definition range (lo hi : Z) : list Z :=
  map (fun i => lo + Z.of_nat i) (seq 0 (Z.to_nat (hi - lo))).

End Py.

(* ================================================================== *)
(** * The service *)
(* ================================================================== *)

(** A call to [requests.get].  The address and the query parameters are
    kept apart instead of being rendered as one text: the base address and
    the credential as read from the environment ([None] when the variable
    is not set), and the endpoint with its arguments. *)
Inductive endpoint :=
| Configuration
| GenreList
| Discover (year page : Z)
| MovieDetails (movie_id : value)
| WatchProviders (movie_id : value).

Record request := {
  req_base : option string;
  req_path : endpoint;
  req_key  : option string
}.

(** What a guarded call gives: the decoded body, or a
    [requests.exceptions.RequestException] (transport failure, error
    status through [raise_for_status], undecodable body). *)
Inductive outcome :=
| Failed
| Body (data : value).

(** The service answers the [n]-th call of a run; the same request may be
    answered differently at two different times. *)
Definition network := nat -> request -> outcome.

(** The process configuration, read once when a script is loaded. *)
Record config := {
  TMDB_API_KEY  : option string;
  TMDB_BASE_URL : option string
}.

(** A computation that issues calls: it threads the list of the calls
    issued so far (oldest first) and may end with an exception that no
    handler of the script catches. *)
Definition M (A : Type) : Type := list request -> result A * list request.

Definition ret {A} (a : A) : M A := fun log => (Ok a, log).

Definition bind {A B} (c : M A) (k : A -> M B) : M B :=
  fun log =>
    match c log with
    | (Ok a, log') => k a log'
    | (Raise e, log') => (Raise e, log')
    end.

Definition lift {A} (r : result A) : M A := fun log => (r, log).

Declare Scope monad_scope.
Delimit Scope monad_scope with monad.
Notation "x <- c ;; k" := (bind c (fun x => k))
  (at level 61, c at next level, right associativity) : monad_scope.
Notation "c ;;; k" := (bind c (fun _ => k))
  (at level 61, right associativity) : monad_scope.

Definition requests_get (net : network) (r : request) : M outcome :=
  fun log => (Ok (net (Datatypes.length log) r), log ++ [r]).

Definition calls {A} (run : result A * list request) : list request := snd run.

(* ================================================================== *)
(** * collect_theatrical_data.py *)
(* ================================================================== *)

Module Collector.

Section TMDbCollector.
Variable net : network.
(** [self.api_key], [self.base_url] *)
Variable self : config.

Definition call (p : endpoint) : M outcome :=
  requests_get net
    {| req_base := TMDB_BASE_URL self; req_path := p;
       req_key := TMDB_API_KEY self |}.

Definition hashable (v : value) : bool :=
  match v with
  | VList _ | VDict _ => false
  | _ => true
  end.

(** The items of [{g['id']: g['name'] for g in genres}], in the order
    of [genres] (a later item with the same key shadows an earlier
    one; the script never reads the mapping again). *)
Definition genre_item (g : value) : result (value * value) :=
  (k <- Py.getitem g "id" ;;
   v <- Py.getitem g "name" ;;
   if hashable k then Ok (k, v) else Raise TypeError)%result.

Definition get_genres : M (list (value * value)) :=
  (o <- call GenreList ;;
   match o with
   | Body data =>
       lift (genres <- Py.getitem data "genres" ;;
             gs <- Py.iter genres ;;
             mapM genre_item gs)%result
   | Failed => ret []
   end)%monad.

Definition discover_movies (year page : Z) : M value :=
  (o <- call (Discover year page) ;;
   match o with
   | Body data => ret data
   | Failed => ret VNone
   end)%monad.

Definition get_movie_details (movie_id : value) : M value :=
  (o <- call (MovieDetails movie_id) ;;
   match o with
   | Body data => ret data
   | Failed => ret VNone
   end)%monad.

(** [[g[k] for g in v]] *)
Definition pluck (k : string) (v : value) : result value :=
  (gs <- Py.iter v ;;
   xs <- mapM (fun g => Py.getitem g k) gs ;;
   Ok (VList xs))%result.

(** [details.get('genres', [{}])[0].get('name')
     if details.get('genres') else None] *)
Definition primary_genre (details : value) : result value :=
  (c <- Py.get details "genres" VNone ;;
   if Py.truthy c then
     (gs <- Py.get details "genres" (VList [VDict []]) ;;
      g <- Py.first gs ;;
      Py.get g "name" VNone)
   else Ok VNone)%result.

(** The [movie_data] literal of [collect_year_data], its items
    evaluated in the order they are written. *)
Definition movie_data (movie_id details : value) : result dict :=
  (title <- Py.get details "title" VNone ;;
   release_date <- Py.get details "release_date" VNone ;;
   budget <- Py.get details "budget" (Py.int 0) ;;
   revenue <- Py.get details "revenue" (Py.int 0) ;;
   runtime <- Py.get details "runtime" VNone ;;
   vote_average <- Py.get details "vote_average" VNone ;;
   vote_count <- Py.get details "vote_count" VNone ;;
   popularity <- Py.get details "popularity" VNone ;;
   original_language <- Py.get details "original_language" VNone ;;
   gs <- Py.get details "genres" (VList []) ;;
   genre_ids <- pluck "id" gs ;;
   gs' <- Py.get details "genres" (VList []) ;;
   genres <- pluck "name" gs' ;;
   primary <- primary_genre details ;;
   cs <- Py.get details "production_companies" (VList []) ;;
   top3 <- Py.take3 cs ;;
   production_companies <- pluck "name" top3 ;;
   ps <- Py.get details "production_countries" (VList []) ;;
   production_countries <- pluck "iso_3166_1" ps ;;
   status <- Py.get details "status" VNone ;;
   tagline <- Py.get details "tagline" VNone ;;
   Ok [ ("movie_id", movie_id);
        ("title", title);
        ("release_date", release_date);
        ("budget", budget);
        ("revenue", revenue);
        ("runtime", runtime);
        ("vote_average", vote_average);
        ("vote_count", vote_count);
        ("popularity", popularity);
        ("original_language", original_language);
        ("genre_ids", genre_ids);
        ("genres", genres);
        ("primary_genre", primary);
        ("production_companies", production_companies);
        ("production_countries", production_countries);
        ("status", status);
        ("tagline", tagline) ])%result.

(** The inner loop of [collect_year_data]: [for movie in movies]. *)
Fixpoint collect_movies (movies : list value) (movies_data : list dict)
  : M (list dict) :=
  match movies with
  | [] => ret movies_data
  | movie :: rest =>
      (movie_id <- lift (Py.getitem movie "id") ;;
       details <- get_movie_details movie_id ;;
       if Py.truthy details then
         (row <- lift (movie_data movie_id details) ;;
          collect_movies rest (movies_data ++ [row]))
       else collect_movies rest movies_data)%monad
  end.

(** The outer loop: [for page in range(1, max_pages + 1)], with its two
    [break]s. *)
Fixpoint collect_pages (year : Z) (pages : list Z) (movies_data : list dict)
  : M (list dict) :=
  match pages with
  | [] => ret movies_data
  | page :: rest =>
      (discover_results <- discover_movies year page ;;
       if negb (Py.truthy discover_results) then ret movies_data
       else
         (has <- lift (Py.is_in "results" discover_results) ;;
          if negb has then ret movies_data
          else
            (listed <- lift (Py.getitem discover_results "results") ;;
             movies <- lift (Py.iter listed) ;;
             movies_data' <- collect_movies movies movies_data ;;
             total <- lift (Py.get discover_results "total_pages" (Py.int 0)) ;;
             last <- lift (Py.int_ge page total) ;;
             if last then ret movies_data'
             else collect_pages year rest movies_data')))%monad
  end.

Definition collect_year_data (year max_pages : Z) : M (list dict) :=
  collect_pages year (Py.range 1 (max_pages + 1)) [].

Definition years : list Z := [2019; 2020; 2021; 2022; 2023; 2024].
Definition max_pages_per_year : Z := 5.

(** [for year in years: all_movies.extend(collect_year_data(...))] *)
Fixpoint collect_years (ys : list Z) (all_movies : list dict)
  : M (list dict) :=
  match ys with
  | [] => ret all_movies
  | year :: rest =>
      (year_movies <- collect_year_data year max_pages_per_year ;;
       collect_years rest (all_movies ++ year_movies))%monad
  end.

(** [main], up to the table: the genre mapping, then every year. *)
Definition collect_all : M (list dict) :=
  (get_genres ;;; collect_years years [])%monad.

End TMDbCollector.

(** The first part of [main]: the collector is built from the two
    configuration values as they are, and collection starts. *)
Definition main (net : network) (env : config) : M (list dict) :=
  collect_all net env.

(** ** The table

    The second part of [main] works on the table [df] built from
    [all_movies].  A row keeps its [budget] and [revenue] cells apart
    from its other cells; both columns hold the integers the service
    sends for these fields (0 where it has no figure), as [int64]. *)
Record movie := {
  cells : dict;
  budget : Z;
  revenue : Z
}.

(** A row of [df_filtered] once the three columns are added. *)
Record retained := {
  row : movie;
  roi : F64.t;
  profit : Z;
  release_year : value
}.

(** An [int64] result wraps around. *)
Definition wrap64 (z : Z) : Z :=
  (z + 2 ^ 63) mod 2 ^ 64 - 2 ^ 63.

Definition int64 (z : Z) : Prop := - 2 ^ 63 <= z < 2 ^ 63.

(** [(df['budget'] > 0) & (df['revenue'] > 0)] on one row *)
Definition keep (r : movie) : bool :=
  (0 <? budget r) && (0 <? revenue r).

(** [((revenue - budget) / budget) * 100] on one row: the difference of
    two [int64] cells, a true division that converts both operands to
    [float64], and a [float64] product. *)
Definition roi_of (r : movie) : F64.t :=
  F64.mul
    (F64.div (F64.of_Z (wrap64 (revenue r - budget r)))
             (F64.of_Z (budget r)))
    (F64.of_Z 100).

(** [revenue - budget] on one row *)
Definition profit_of (r : movie) : Z :=
  wrap64 (revenue r - budget r).

Section Table.
(** [pd.to_datetime(column).dt.year]: a function of the whole column,
    which may raise and otherwise gives one cell per cell. *)
Variable to_datetime_year : list value -> result (list value).

Definition add_columns (rows : list movie) (ys : list value)
  : list retained :=
  map (fun ry =>
         {| row := fst ry;
            roi := roi_of (fst ry);
            profit := profit_of (fst ry);
            release_year := snd ry |})
      (combine rows ys).

(** From [df] to the table that is written.  A table without rows has
    no columns, and [df['budget']] raises. *)
Definition main_table (df : list movie) : result (list retained) :=
  match df with
  | [] => Raise (KeyError "budget")
  | _ =>
      let df_filtered := filter keep df in
      (ys <- to_datetime_year
               (map (fun r => Py.dict_get (cells r) "release_date" VNone)
                    df_filtered) ;;
       Ok (add_columns df_filtered ys))%result
  end.
End Table.

End Collector.

(* ================================================================== *)
(** * add_streaming_data.py *)
(* ================================================================== *)

Module Enricher.

(** The dictionary [parsed] of [parse_providers]; it always has the same
    ten keys, so it is a record here and [items] gives it back as a
    dictionary, in the order of the literal. *)
Record parsed := {
  available_on_streaming : bool;
  streaming_platforms : list value;
  available_to_rent : bool;
  available_to_buy : bool;
  on_netflix : bool;
  on_prime : bool;
  on_disney : bool;
  on_hulu : bool;
  on_hbo : bool;
  total_platforms : Z
}.

Definition items (p : parsed) : dict :=
  [ ("available_on_streaming", VBool (available_on_streaming p));
    ("streaming_platforms", VList (streaming_platforms p));
    ("available_to_rent", VBool (available_to_rent p));
    ("available_to_buy", VBool (available_to_buy p));
    ("on_netflix", VBool (on_netflix p));
    ("on_prime", VBool (on_prime p));
    ("on_disney", VBool (on_disney p));
    ("on_hulu", VBool (on_hulu p));
    ("on_hbo", VBool (on_hbo p));
    ("total_platforms", Py.int (total_platforms p)) ].

(** The flags of the five platforms, each an [any] over [platforms]. *)
Definition is_netflix (p : value) : result bool :=
  Py.is_in "Netflix" p.
Definition is_prime (p : value) : result bool :=
  Py.or_else (Py.is_in "Prime" p) (Py.is_in "Amazon" p).
Definition is_disney (p : value) : result bool :=
  Py.is_in "Disney" p.
Definition is_hulu (p : value) : result bool :=
  Py.is_in "Hulu" p.
Definition is_hbo (p : value) : result bool :=
  Py.or_else (Py.is_in "HBO" p) (Py.is_in "Max" p).

Definition parse_providers (providers_data : value) : result parsed :=
  (flat <- Py.is_in "flatrate" providers_data ;;
   sub <-
     (if flat then
        (listed <- Py.getitem providers_data "flatrate" ;;
         ps <- Py.iter listed ;;
         platforms <- mapM (fun p => Py.getitem p "provider_name") ps ;;
         netflix <- Py.any is_netflix platforms ;;
         prime <- Py.any is_prime platforms ;;
         disney <- Py.any is_disney platforms ;;
         hulu <- Py.any is_hulu platforms ;;
         hbo <- Py.any is_hbo platforms ;;
         Ok (true, platforms, Py.len platforms,
             (netflix, prime, disney, hulu, hbo)))
      else Ok (false, [], 0, (false, false, false, false, false))) ;;
   rent <- Py.is_in "rent" providers_data ;;
   buy <- Py.is_in "buy" providers_data ;;
   let '(streaming, platforms, total, (netflix, prime, disney, hulu, hbo)) :=
     sub in
   Ok {| available_on_streaming := streaming;
         streaming_platforms := platforms;
         available_to_rent := rent;
         available_to_buy := buy;
         on_netflix := netflix;
         on_prime := prime;
         on_disney := disney;
         on_hulu := hulu;
         on_hbo := hbo;
         total_platforms := total |})%result.

Inductive release_strategy :=
| TheatricalToStreaming
| TheatricalOnly
| StreamingFirst
| LimitedTheatrical.

(** The text of each label. *)
Definition label (s : release_strategy) : string :=
  match s with
  | TheatricalToStreaming => "Theatrical → Streaming"
  | TheatricalOnly => "Theatrical Only"
  | StreamingFirst => "Streaming-First"
  | LimitedTheatrical => "Limited Theatrical"
  end.

(** [row] is a row of the table, read with [row.get(column, default)].
    The second test of the [elif] is evaluated only when the first one
    holds. *)
Definition categorize_release_strategy (row : dict) : result release_strategy :=
  let revenue := Py.dict_get row "revenue" (Py.int 0) in
  let budget := Py.dict_get row "budget" (Py.int 0) in
  let on_streaming := Py.dict_get row "available_on_streaming" (VBool false) in
  (high <- Py.gt revenue 50000000 ;;
   if high then
     if Py.truthy on_streaming
     then Ok TheatricalToStreaming
     else Ok TheatricalOnly
   else
     (low <- Py.lt revenue 10000000 ;;
      funded <- (if low then Py.gt budget 0 else Ok false) ;;
      if funded then
        if Py.truthy on_streaming
        then Ok StreamingFirst
        else Ok LimitedTheatrical
      else
        if Py.truthy on_streaming
        then Ok TheatricalToStreaming
        else Ok TheatricalOnly))%result.

Section StreamingEnricher.
Variable net : network.
Variable self : config.

Definition call (p : endpoint) : M outcome :=
  requests_get net
    {| req_base := TMDB_BASE_URL self; req_path := p;
       req_key := TMDB_API_KEY self |}.

Definition get_watch_providers (movie_id : value) : M value :=
  (o <- call (WatchProviders movie_id) ;;
   match o with
   | Body data =>
       lift (results <- Py.get data "results" (VDict []) ;;
             Py.get results "US" (VDict []))%result
   | Failed => ret (VDict [])
   end)%monad.

Definition streaming_cols : list string :=
  [ "available_on_streaming"; "streaming_platforms"; "available_to_rent";
    "available_to_buy"; "on_netflix"; "on_prime"; "on_disney"; "on_hulu";
    "on_hbo"; "total_platforms"; "release_strategy" ].

(** [df[col] = None] on one row, for every column but the last. *)
Definition init_cols (row : dict) : dict :=
  fold_left (fun r col => Py.set col VNone r)
            (removelast streaming_cols) row.

(** [for key, value in parsed.items(): df.at[idx, key] = value] *)
Definition update (row : dict) (p : parsed) : dict :=
  fold_left (fun r kv => Py.set (fst kv) (snd kv) r) (items p) row.

(** The loop over [df.iterrows()]. *)
Fixpoint enrich_rows (rows : list dict) : M (list dict) :=
  match rows with
  | [] => ret []
  | row :: rest =>
      (movie_id <- lift (Py.getitem (VDict row) "movie_id") ;;
       providers <- get_watch_providers movie_id ;;
       p <- lift (parse_providers providers) ;;
       rest' <- enrich_rows rest ;;
       ret (update row p :: rest'))%monad
  end.

(** [df['release_strategy'] = df.apply(categorize_release_strategy,
     axis=1)] *)
Definition add_release_strategy (rows : list dict) : result (list dict) :=
  mapM (fun row =>
          (s <- categorize_release_strategy row ;;
           Ok (Py.set "release_strategy" (VStr (label s)) row))%result)
       rows.

Definition enrich_dataset (df : list dict) : M (list dict) :=
  (rows <- enrich_rows (map init_cols df) ;;
   lift (add_release_strategy rows))%monad.

End StreamingEnricher.

(** [main]: [theatrical_file] is the table read from
    [theatrical_data_raw.csv], [None] when the file does not exist; the
    result is the table that is written, [None] when [main] returns
    early.  The console summaries are left out. *)
Definition main (net : network) (env : config)
                (theatrical_file : option (list dict))
  : M (option (list dict)) :=
  match theatrical_file with
  | None => ret None
  | Some df =>
      (df_enriched <- enrich_dataset net env df ;;
       ret (Some df_enriched))%monad
  end.

End Enricher.

(* ================================================================== *)
(** * test_api_connection.py *)
(* ================================================================== *)

Module Prober.

Definition key_loaded (env : config) : bool :=
  match TMDB_API_KEY env with
  | Some k => negb (k =? "")%string
  | None => false
  end.

(** [test_api_connection]: the credential is looked at before the
    call; the body of the answer is not read. *)
Definition test_api_connection (net : network) (env : config) : M bool :=
  if negb (key_loaded env) then ret false
  else
    (o <- requests_get net
            {| req_base := TMDB_BASE_URL env; req_path := Configuration;
               req_key := TMDB_API_KEY env |} ;;
     match o with
     | Body _ => ret true
     | Failed => ret false
     end)%monad.

(** [main]: the other three tests run only after the first one passed;
    they are [tests] here. *)
Definition main (net : network) (env : config) (tests : M unit) : M unit :=
  (ok <- test_api_connection net env ;;
   if negb ok then ret tt else tests)%monad.

End Prober.

(* ================================================================== *)
(** * The vocabulary of the statements *)
(* ================================================================== *)

(** What [in] decides on two strings. *)
Definition occurs (brand name : string) : Prop :=
  exists before after, name = (before ++ brand ++ after)%string.

(** The record [parsed] starts from in [parse_providers]. *)
Definition no_providers : Enricher.parsed :=
  {| Enricher.available_on_streaming := false;
     Enricher.streaming_platforms := [];
     Enricher.available_to_rent := false;
     Enricher.available_to_buy := false;
     Enricher.on_netflix := false;
     Enricher.on_prime := false;
     Enricher.on_disney := false;
     Enricher.on_hulu := false;
     Enricher.on_hbo := false;
     Enricher.total_platforms := 0 |}.

(** [names] are the platform names of the subscription list of the
    payload [d], in order: the [provider_name] of each entry of
    [d['flatrate']], and none when [d] has no such key. *)
Definition subscription (d : dict) (names : list string) : Prop :=
  match Py.lookup "flatrate" d with
  | None => names = []
  | Some listed =>
      exists entries,
        Py.iter listed = Ok entries
        /\ Forall2 (fun e n => Py.getitem e "provider_name" = Ok (VStr n))
                   entries names
  end.

(** A row whose three cells are two numbers and a boolean: what the
    tables of the scripts hold in these columns. *)
Definition typed_row (row : dict) (revenue budget : num) (on_streaming : bool)
  : Prop :=
  Py.lookup "revenue" row = Some (VNum revenue)
  /\ Py.lookup "budget" row = Some (VNum budget)
  /\ Py.lookup "available_on_streaming" row = Some (VBool on_streaming).



(** A computation only adds to the list of the calls issued. *)
Definition extends {A} (c : M A) : Prop :=
  forall log, exists more, calls (c log) = log ++ more.

(** The first call a computation issues is [r]. *)
Definition starts_with {A} (r : request) (c : M A) : Prop :=
  forall log, exists more, calls (c log) = log ++ r :: more.

(** The call a collector or an enricher built on [self] issues for an
    endpoint. *)
Definition request_for (self : config) (p : endpoint) : request :=
  {| req_base := TMDB_BASE_URL self; req_path := p;
     req_key := TMDB_API_KEY self |}.

(** [f] applied to what a run returns. *)
Definition and_then {A B} (f : A -> B) (run : result A * list request)
  : result B * list request :=
  (match fst run with Ok a => Ok (f a) | Raise e => Raise e end, snd run).

(** The columns of a record of the collector, in their order. *)
Definition movie_columns : list string :=
  [ "movie_id"; "title"; "release_date"; "budget"; "revenue"; "runtime";
    "vote_average"; "vote_count"; "popularity"; "original_language";
    "genre_ids"; "genres"; "primary_genre"; "production_companies";
    "production_countries"; "status"; "tagline" ].

(** The pages of the discovery asked for in a list of calls, each with
    its year, in the order of the calls. *)
Definition discovery (r : request) : list (Z * Z) :=
  match req_path r with
  | Discover year page => [(year, page)]
  | _ => []
  end.

Definition discoveries (log : list request) : list (Z * Z) :=
  flat_map discovery log.

(** A computation that asks for no page of the discovery. *)
Definition quiet {A} (c : M A) : Prop :=
  forall log, exists more,
    calls (c log) = log ++ more /\ discoveries more = [].

(** A computation that asks for the pages [pages] of [year], from the
    first one on and in their order, up to some page. *)
Definition asks {A} (year : Z) (pages : list Z) (c : M A) : Prop :=
  forall log, exists more k,
    calls (c log) = log ++ more
    /\ discoveries more = map (pair year) (firstn k pages).

(** The first [snd yk] pages of the year [fst yk], out of the pages 1 to
    [max_pages]. *)
Definition first_pages (max_pages : Z) (yk : Z * nat) : list (Z * Z) :=
  map (pair (fst yk)) (firstn (snd yk) (Py.range 1 (max_pages + 1))).

(** The films whose details are asked for in a list of calls, in the
    order of the calls. *)
Definition detail (r : request) : list value :=
  match req_path r with
  | MovieDetails movie_id => [movie_id]
  | _ => []
  end.

Definition details (log : list request) : list value :=
  flat_map detail log.

(** A record of the collector that comes from one of the calls [more]:
    it has the columns of a record, and its identifier is one the
    details were asked for. *)
Definition from_calls (more : list request) (row : dict) : Prop :=
  map fst row = movie_columns
  /\ exists movie_id,
       Py.lookup "movie_id" row = Some movie_id /\ In movie_id (details more).

(** Records that all come from the calls [more], no more of them than
    there are calls for details. *)
Definition backed (more : list request) (rows : list dict) : Prop :=
  Forall (from_calls more) rows
  /\ (Datatypes.length rows <= Datatypes.length (details more))%nat.

(** The labels that say the film is on streaming. *)
Definition streaming_label (s : Enricher.release_strategy) : bool :=
  match s with
  | Enricher.TheatricalToStreaming | Enricher.StreamingFirst => true
  | Enricher.TheatricalOnly | Enricher.LimitedTheatrical => false
  end.

(** The column the years are read from. *)
Definition release_dates (rows : list Collector.movie) : list value :=
  map (fun r => Py.dict_get (Collector.cells r) "release_date" VNone) rows.

(** ** A service and a table for the examples of the enricher *)

Definition example_env : config :=
  {| TMDB_API_KEY := Some "k";
     TMDB_BASE_URL := Some "https://api.themoviedb.org/3" |}.

(** A service that lists Netflix for the region of every film. *)
Definition netflix_everywhere : network :=
  fun _ _ =>
    Body (VDict
            [("id", Py.int 550);
             ("results",
              VDict [("US",
                      VDict [("flatrate",
                              VList [VDict [("provider_name",
                                             VStr "Netflix")]])])])]).

(** A service that lists one film on the only page of every year, and
    has its details. *)
Definition one_film_a_year : network :=
  fun _ r =>
    match req_path r with
    | Discover _ _ =>
        Body (VDict [("results", VList [VDict [("id", Py.int 550)]]);
                     ("total_pages", Py.int 1)])
    | MovieDetails _ => Body (VDict [("title", VStr "Fight Club")])
    | _ => Failed
    end.

(** A service that is out of reach. *)
Definition network_down : network := fun _ _ => Failed.

Definition two_rows : list dict :=
  [ [("movie_id", Py.int 550); ("budget", Py.int 63000000);
     ("revenue", Py.int 100853753)];
    [("movie_id", Py.int 551); ("budget", Py.int 2000000);
     ("revenue", Py.int 5000000)] ].

(** ** A table for the examples *)

(** A year for every cell. *)
Definition year_2019 (column : list value) : result (list value) :=
  Ok (map (fun _ => Py.int 2019) column).

Definition three_movies : list Collector.movie :=
  [ {| Collector.cells := [("title", VStr "A")];
       Collector.budget := 30000000; Collector.revenue := 40000000 |};
    {| Collector.cells := [("title", VStr "B")];
       Collector.budget := 0; Collector.revenue := 12000000 |};
    {| Collector.cells := [("title", VStr "C")];
       Collector.budget := 63000000; Collector.revenue := 100853753 |} ].

(** What the collector writes for [three_movies]; the two [roi] cells are
    33.33333333333333 and 60.085322222222224. *)
Definition two_retained : list Collector.retained :=
  [ {| Collector.row :=
         {| Collector.cells := [("title", VStr "A")];
            Collector.budget := 30000000; Collector.revenue := 40000000 |};
       Collector.roi := S754_finite false 4691249611844266 (-47);
       Collector.profit := 10000000;
       Collector.release_year := Py.int 2019 |};
    {| Collector.row :=
         {| Collector.cells := [("title", VStr "C")];
            Collector.budget := 63000000; Collector.revenue := 100853753 |};
       Collector.roi := S754_finite false 8456257336576131 (-47);
       Collector.profit := 37853753;
       Collector.release_year := Py.int 2019 |} ].

(** ** Binary64 numbers *)

(** A finite float of sign [s], of at most 53 digits, with its exponent
    between [lo] and [hi]. *)
Definition finite_in (s : bool) (lo hi : Z) (f : F64.t) : Prop :=
  exists m e, f = S754_finite s m e
              /\ Z.pos (digits2_pos m) <= 53 /\ lo <= e <= hi.

(** Neither an infinity nor NaN. *)
Definition is_finite (f : F64.t) : bool :=
  match f with
  | S754_zero _ | S754_finite _ _ _ => true
  | S754_infinity _ | S754_nan => false
  end.

(* ================================================================== *)
(** * Lemmas on values *)
(* ================================================================== *)

Lemma rbind_ok {A B} (r : result A) (k : A -> result B) (b : B) :
  rbind r k = Ok b -> exists a, r = Ok a /\ k a = Ok b.
Proof.
  destruct r as [a|e]; simpl; intro H.
  - exists a. split; [reflexivity | exact H].
  - discriminate H.
Qed.

Section Results.
Context {A B : Type}.

Lemma mapM_Forall2 (f : A -> result B) (l : list A) (ys : list B) :
  Forall2 (fun x y => f x = Ok y) l ys -> mapM f l = Ok ys.
Proof.
  induction 1 as [|x y l ys Hxy _ IH]; simpl.
  - reflexivity.
  - rewrite Hxy. simpl. rewrite IH. reflexivity.
Qed.
End Results.

Section Strings.

Lemma prefix_append (a b : string) :
  String.prefix a b = true <-> exists after, b = (a ++ after)%string.
Proof.
  revert b. induction a as [|c a IH]; intro b.
  - split; [intros _; exists b; reflexivity | intros _; destruct b; reflexivity].
  - destruct b as [|c' b]; simpl.
    + split; [discriminate | intros [after H]; discriminate H].
    + destruct (ascii_dec c c') as [->|Hne].
      * rewrite IH. split; intros [after H]; exists after.
        -- rewrite H. reflexivity.
        -- injection H as H. exact H.
      * split; [discriminate|].
        intros [after H]. injection H as Hc _. symmetry in Hc. contradiction.
Qed.

Lemma contains_occurs (brand name : string) :
  Py.contains brand name = true <-> occurs brand name.
Proof.
  unfold occurs. induction name as [|c name IH].
  - cbn [Py.contains]. rewrite orb_false_r, prefix_append. split.
    + intros [after H]. exists EmptyString, after. exact H.
    + intros [before [after H]]. destruct before as [|c before].
      * exists after. exact H.
      * discriminate H.
  - cbn [Py.contains]. rewrite orb_true_iff, IH, prefix_append. split.
    + intros [[after H] | [before [after H]]].
      * exists EmptyString, after. exact H.
      * exists (String c before), after. simpl. f_equal. exact H.
    + intros [before [after H]]. destruct before as [|c' before].
      * left. exists after. exact H.
      * right. exists before, after. injection H as _ H. exact H.
Qed.

(** The match is on the characters as they are: no case folding. *)
Example contains_is_case_sensitive :
  Py.contains "Netflix" "Netflix basic with Ads" = true
  /\ Py.contains "Netflix" "netflix" = false
  /\ Py.contains "Netflix" "NETFLIX" = false.
Proof. repeat split; reflexivity. Qed.

(** A brand string also matches inside the name of another service. *)
Example contains_matches_inside_a_word :
  Py.contains "Max" "Cinemax Amazon Channel" = false
  /\ Py.contains "Max" "MaxDome Store" = true.
Proof. split; reflexivity. Qed.

End Strings.

Section Dictionaries.

Lemma has_key_lookup (k : string) (d : dict) :
  Py.has_key k d = true <-> exists v, Py.lookup k d = Some v.
Proof.
  unfold Py.has_key. destruct (Py.lookup k d) as [v|].
  - split; [intros _; exists v; reflexivity | reflexivity].
  - split; [discriminate | intros [v H]; discriminate H].
Qed.

Lemma lookup_set_same (k : string) (v : value) (d : dict) :
  Py.lookup k (Py.set k v d) = Some v.
Proof.
  induction d as [|[k' v'] d IH]; simpl.
  - rewrite String.eqb_refl. reflexivity.
  - destruct (k =? k')%string eqn:E; simpl.
    + rewrite String.eqb_refl. reflexivity.
    + rewrite E. exact IH.
Qed.

Lemma lookup_set_other (k k' : string) (v : value) (d : dict) :
  k <> k' -> Py.lookup k (Py.set k' v d) = Py.lookup k d.
Proof.
  intro Hne. induction d as [|[k0 v0] d IH]; simpl.
  - apply String.eqb_neq in Hne. rewrite Hne. reflexivity.
  - destruct (k' =? k0)%string eqn:E; simpl.
    + apply String.eqb_eq in E. subst k0.
      apply String.eqb_neq in Hne. rewrite Hne. reflexivity.
    + rewrite IH. reflexivity.
Qed.

End Dictionaries.

(* ================================================================== *)
(** * parse_providers *)
(* ================================================================== *)

Section ParseProviders.
Import Enricher.

Lemma any_names (f : value -> result bool) (g : string -> bool)
                (names : list string) :
  (forall s, f (VStr s) = Ok (g s)) ->
  Py.any f (map VStr names) = Ok (existsb g names).
Proof.
  intro Hf. induction names as [|n names IH]; simpl.
  - reflexivity.
  - rewrite Hf. simpl. destruct (g n); [reflexivity | exact IH].
Qed.

Lemma existsb_Exists {X} (g : X -> bool) (P : X -> Prop) (l : list X) :
  (forall x, g x = true <-> P x) ->
  existsb g l = true <-> Exists P l.
Proof.
  intro Hg. rewrite existsb_exists, Exists_exists.
  split; intros [x [Hin Hx]]; exists x; (split; [exact Hin | apply Hg; exact Hx]).
Qed.

(** On a payload whose subscription entries carry a name, parsing
    returns, and this is the record it returns. *)
Lemma parse_providers_subscription (d : dict) (names : list string) :
  subscription d names ->
  parse_providers (VDict d) =
  Ok {| available_on_streaming := Py.has_key "flatrate" d;
        streaming_platforms := map VStr names;
        available_to_rent := Py.has_key "rent" d;
        available_to_buy := Py.has_key "buy" d;
        on_netflix := existsb (Py.contains "Netflix") names;
        on_prime :=
          existsb (fun n => Py.contains "Prime" n || Py.contains "Amazon" n)
                  names;
        on_disney := existsb (Py.contains "Disney") names;
        on_hulu := existsb (Py.contains "Hulu") names;
        on_hbo :=
          existsb (fun n => Py.contains "HBO" n || Py.contains "Max" n)
                  names;
        total_platforms := Py.len names |}.
Proof.
  unfold subscription, parse_providers. cbn [Py.is_in rbind].
  assert (Hkey : Py.has_key "flatrate" d
                 = match Py.lookup "flatrate" d with
                   | Some _ => true
                   | None => false
                   end) by reflexivity.
  rewrite !Hkey. clear Hkey. cbn [Py.getitem].
  destruct (Py.lookup "flatrate" d) as [listed|].
  - intros [entries [Hiter Hnames]].
    cbn [rbind]. rewrite Hiter. cbn [rbind].
    rewrite (mapM_Forall2 _ _ (map VStr names)).
    2:{ clear - Hnames. induction Hnames; simpl; constructor; assumption. }
    cbn [rbind].
    rewrite (any_names is_netflix (Py.contains "Netflix")) by reflexivity.
    rewrite (any_names is_prime
               (fun n => Py.contains "Prime" n || Py.contains "Amazon" n)).
    2:{ intro s. unfold is_prime, Py.or_else. simpl.
        destruct (Py.contains "Prime" s); reflexivity. }
    rewrite (any_names is_disney (Py.contains "Disney")) by reflexivity.
    rewrite (any_names is_hulu (Py.contains "Hulu")) by reflexivity.
    rewrite (any_names is_hbo
               (fun n => Py.contains "HBO" n || Py.contains "Max" n)).
    2:{ intro s. unfold is_hbo, Py.or_else. simpl.
        destruct (Py.contains "HBO" s); reflexivity. }
    cbn [rbind]. unfold Py.len. rewrite length_map. reflexivity.
  - intros ->. reflexivity.
Qed.

(** What parsing returns, whenever it returns: the three availability
    flags are the presence of the three keys, and the count is the
    length of the list of platforms. *)
Lemma parse_providers_inv (providers_data : value) (p : parsed) :
  parse_providers providers_data = Ok p ->
  Py.is_in "flatrate" providers_data = Ok (available_on_streaming p)
  /\ Py.is_in "rent" providers_data = Ok (available_to_rent p)
  /\ Py.is_in "buy" providers_data = Ok (available_to_buy p)
  /\ total_platforms p = Py.len (streaming_platforms p).
Proof.
  unfold parse_providers. intro H.
  apply rbind_ok in H. destruct H as [flat [Hflat H]].
  apply rbind_ok in H. destruct H as [sub [Hsub H]].
  apply rbind_ok in H. destruct H as [rent [Hrent H]].
  apply rbind_ok in H. destruct H as [buy [Hbuy H]].
  rewrite Hflat, Hrent, Hbuy.
  destruct flat.
  - apply rbind_ok in Hsub. destruct Hsub as [listed [_ Hsub]].
    apply rbind_ok in Hsub. destruct Hsub as [ps [_ Hsub]].
    apply rbind_ok in Hsub. destruct Hsub as [platforms [_ Hsub]].
    apply rbind_ok in Hsub. destruct Hsub as [netflix [_ Hsub]].
    apply rbind_ok in Hsub. destruct Hsub as [prime [_ Hsub]].
    apply rbind_ok in Hsub. destruct Hsub as [disney [_ Hsub]].
    apply rbind_ok in Hsub. destruct Hsub as [hulu [_ Hsub]].
    apply rbind_ok in Hsub. destruct Hsub as [hbo [_ Hsub]].
    injection Hsub as <-. injection H as <-. simpl. auto.
  - injection Hsub as <-. injection H as <-. simpl. auto.
Qed.

(** C7. After parsing a payload, [on_netflix] is true iff some platform
    name of the subscription list contains the text "Netflix" as it is
    written, and each of the other four flags is true iff some name
    contains its brand text: "Prime" or "Amazon" for [on_prime],
    "Disney" for [on_disney], "Hulu" for [on_hulu], "HBO" or "Max" for
    [on_hbo]. *)
Theorem parse_providers_platform_flags (d : dict) (names : list string) :
  subscription d names ->
  exists p,
    parse_providers (VDict d) = Ok p
    /\ (on_netflix p = true <-> Exists (occurs "Netflix") names)
    /\ (on_prime p = true <->
        Exists (fun n => occurs "Prime" n \/ occurs "Amazon" n) names)
    /\ (on_disney p = true <-> Exists (occurs "Disney") names)
    /\ (on_hulu p = true <-> Exists (occurs "Hulu") names)
    /\ (on_hbo p = true <->
        Exists (fun n => occurs "HBO" n \/ occurs "Max" n) names).
Proof.
  intro Hsub. eexists. split.
  - apply parse_providers_subscription. exact Hsub.
  - cbn [on_netflix on_prime on_disney on_hulu on_hbo].
    assert (Hone : forall brand,
               existsb (Py.contains brand) names = true
               <-> Exists (occurs brand) names).
    { intro brand. apply existsb_Exists. intro n. apply contains_occurs. }
    assert (Htwo : forall brand brand',
               existsb (fun n => Py.contains brand n || Py.contains brand' n)
                       names = true
               <-> Exists (fun n => occurs brand n \/ occurs brand' n) names).
    { intros brand brand'. apply existsb_Exists. intro n.
      rewrite orb_true_iff, !contains_occurs. reflexivity. }
    split; [apply Hone|].
    split; [apply Htwo|].
    split; [apply Hone|].
    split; [apply Hone | apply Htwo].
Qed.

Lemma parse_providers_platform_flags_witness :
  let d := [("flatrate",
             VList [VDict [("provider_id", Py.int 8);
                           ("provider_name", VStr "Netflix")];
                    VDict [("provider_id", Py.int 1899);
                           ("provider_name", VStr "Max")]])] in
  subscription d ["Netflix"; "Max"]
  /\ exists p,
      parse_providers (VDict d) = Ok p
      /\ (on_netflix p = true <-> Exists (occurs "Netflix") ["Netflix"; "Max"])
      /\ (on_prime p = true <->
          Exists (fun n => occurs "Prime" n \/ occurs "Amazon" n)
                 ["Netflix"; "Max"])
      /\ (on_disney p = true <-> Exists (occurs "Disney") ["Netflix"; "Max"])
      /\ (on_hulu p = true <-> Exists (occurs "Hulu") ["Netflix"; "Max"])
      /\ (on_hbo p = true <->
          Exists (fun n => occurs "HBO" n \/ occurs "Max" n)
                 ["Netflix"; "Max"]).
Proof.
  intro d.
  assert (H : subscription d ["Netflix"; "Max"]).
  { unfold subscription. simpl. eexists. split; [reflexivity|].
    repeat constructor. }
  split; [exact H | exact (parse_providers_platform_flags d _ H)].
Defined.

(** C8. Parsing a payload that has none of the keys "flatrate", "rent"
    and "buy" returns the record where the three availability flags and
    the five platform flags are false, the list of platforms is empty
    and the count is 0. *)
Theorem parse_providers_no_keys (d : dict) :
  Py.has_key "flatrate" d = false ->
  Py.has_key "rent" d = false ->
  Py.has_key "buy" d = false ->
  parse_providers (VDict d) = Ok no_providers.
Proof.
  intros Hflat Hrent Hbuy. unfold parse_providers.
  cbn [Py.is_in rbind]. rewrite Hflat, Hrent, Hbuy. reflexivity.
Qed.

Lemma parse_providers_no_keys_witness :
  let d := [("link", VStr "https://www.themoviedb.org/movie/550/watch");
            ("ads", VList [])] in
  Py.has_key "flatrate" d = false
  /\ Py.has_key "rent" d = false
  /\ Py.has_key "buy" d = false
  /\ parse_providers (VDict d) = Ok no_providers.
Proof.
  intro d.
  split; [reflexivity | split; [reflexivity | split; [reflexivity|]]].
  exact (parse_providers_no_keys d eq_refl eq_refl eq_refl).
Defined.

(** C10. For every payload, the record parsing returns has
    [available_on_streaming] true iff the payload has the key
    "flatrate" (whatever it is mapped to, the empty list included),
    [total_platforms] equal to the length of [streaming_platforms], and
    [available_to_rent], [available_to_buy] equal to the presence of
    the keys "rent" and "buy", whether "flatrate" is there or not. *)
Theorem parse_providers_availability (d : dict) (p : parsed) :
  parse_providers (VDict d) = Ok p ->
  (available_on_streaming p = true <->
     exists listed, Py.lookup "flatrate" d = Some listed)
  /\ total_platforms p = Z.of_nat (Datatypes.length (streaming_platforms p))
  /\ available_to_rent p = Py.has_key "rent" d
  /\ available_to_buy p = Py.has_key "buy" d.
Proof.
  intro H. apply parse_providers_inv in H.
  destruct H as [Hflat [Hrent [Hbuy Htotal]]].
  cbn [Py.is_in] in Hflat, Hrent, Hbuy.
  injection Hflat as Hflat. injection Hrent as Hrent. injection Hbuy as Hbuy.
  split; [rewrite <- Hflat; apply has_key_lookup|].
  split; [exact Htotal|].
  split; symmetry; assumption.
Qed.

Lemma parse_providers_availability_witness :
  let d := [("flatrate", VList []); ("buy", VList [])] in
  let p := {| available_on_streaming := true;
              streaming_platforms := [];
              available_to_rent := false;
              available_to_buy := true;
              on_netflix := false;
              on_prime := false;
              on_disney := false;
              on_hulu := false;
              on_hbo := false;
              total_platforms := 0 |} in
  parse_providers (VDict d) = Ok p
  /\ (available_on_streaming p = true <->
        exists listed, Py.lookup "flatrate" d = Some listed)
  /\ total_platforms p = Z.of_nat (Datatypes.length (streaming_platforms p))
  /\ available_to_rent p = Py.has_key "rent" d
  /\ available_to_buy p = Py.has_key "buy" d.
Proof.
  intros d p. split; [reflexivity|].
  exact (parse_providers_availability d p eq_refl).
Defined.

End ParseProviders.

(* ================================================================== *)
(** * categorize_release_strategy *)
(* ================================================================== *)

Section Categorize.
Import Enricher.

Lemma categorize_typed_row row revenue budget on_streaming :
  typed_row row revenue budget on_streaming ->
  categorize_release_strategy row =
  Ok (if Py.num_gt revenue 50000000 then
        if on_streaming then TheatricalToStreaming else TheatricalOnly
      else if Py.num_lt revenue 10000000 && Py.num_gt budget 0 then
        if on_streaming then StreamingFirst else LimitedTheatrical
      else
        if on_streaming then TheatricalToStreaming else TheatricalOnly).
Proof.
  intros [Hrev [Hbud Hon]].
  unfold categorize_release_strategy, Py.dict_get.
  rewrite Hrev, Hbud, Hon. unfold Py.gt, Py.lt, Py.as_num, rbind, Py.truthy.
  destruct (Py.num_gt revenue 50000000).
  - destruct on_streaming; reflexivity.
  - destruct (Py.num_lt revenue 10000000).
    + destruct (Py.num_gt budget 0); destruct on_streaming; reflexivity.
    + destruct on_streaming; reflexivity.
Qed.

(** The two thresholds as binary64 numbers; both are exact. *)
Lemma of_Z_10_000_000 :
  F64.of_Z 10000000 = S754_finite false 5368709120000000 (-29).
Proof. vm_compute. reflexivity. Qed.

Lemma of_Z_50_000_000 :
  F64.of_Z 50000000 = S754_finite false 6710886400000000 (-27).
Proof. vm_compute. reflexivity. Qed.

(** The two bands do not meet: a revenue under 10,000,000 is not over
    50,000,000, for an integer and for a float (NaN is in neither). *)
Lemma low_is_not_high (revenue : num) :
  Py.num_lt revenue 10000000 = true -> Py.num_gt revenue 50000000 = false.
Proof.
  destruct revenue as [z|f]; unfold Py.num_lt, Py.num_gt.
  - rewrite Z.ltb_lt, Z.ltb_ge. lia.
  - rewrite of_Z_10_000_000, of_Z_50_000_000.
    unfold F64.ltb, SFltb, SFcompare.
    destruct f as [s|s| |s m e]; try destruct s;
      try reflexivity; try discriminate.
    all: destruct (Z.compare_spec e (-29)); destruct (Z.compare_spec (-27) e);
      try reflexivity; try discriminate; try lia.
Qed.



(** The three scenarios of the specification. *)
Example categorize_scenarios :
  categorize_release_strategy
    [("revenue", Py.int 100000000); ("budget", Py.int 20000000);
     ("available_on_streaming", VBool true)] = Ok TheatricalToStreaming
  /\ categorize_release_strategy
       [("revenue", Py.int 5000000); ("budget", Py.int 2000000);
        ("available_on_streaming", VBool false)] = Ok LimitedTheatrical
  /\ categorize_release_strategy
       [("revenue", Py.int 5000000); ("budget", Py.int 0);
        ("available_on_streaming", VBool true)] = Ok TheatricalToStreaming.
Proof. split; [|split]; reflexivity. Qed.

(** The label does not depend on anything but the three cells. *)
Lemma categorize_reads_three_cells (row1 row2 : dict) :
  Py.lookup "revenue" row2 = Py.lookup "revenue" row1 ->
  Py.lookup "budget" row2 = Py.lookup "budget" row1 ->
  Py.lookup "available_on_streaming" row2
  = Py.lookup "available_on_streaming" row1 ->
  categorize_release_strategy row2 = categorize_release_strategy row1.
Proof.
  intros Hrev Hbud Hon. unfold categorize_release_strategy, Py.dict_get.
  rewrite Hrev, Hbud, Hon. reflexivity.
Qed.

(** C4. The label is a function of the revenue, the budget and the
    streaming flag: two rows that agree on the three get the same label;
    and it is total: whatever the two numbers (integers or floats, NaN
    and the infinities included) and the flag, the row gets one of the
    four labels. *)
Theorem categorize_release_strategy_pure_total
  (row1 row2 : dict) (revenue budget : num) (on_streaming : bool) :
  typed_row row1 revenue budget on_streaming ->
  typed_row row2 revenue budget on_streaming ->
  exists s : release_strategy,
    categorize_release_strategy row1 = Ok s
    /\ categorize_release_strategy row2 = Ok s.
Proof.
  intros H1 H2.
  rewrite (categorize_typed_row _ _ _ _ H1), (categorize_typed_row _ _ _ _ H2).
  eexists. split; reflexivity.
Qed.

Lemma categorize_release_strategy_pure_total_witness :
  let row1 := [("title", VStr "Fight Club");
               ("budget", Py.int 63000000);
               ("revenue", VNum (NFloat S754_nan));
               ("available_on_streaming", VBool false)] in
  let row2 := [("available_on_streaming", VBool false);
               ("revenue", VNum (NFloat S754_nan));
               ("budget", Py.int 63000000);
               ("roi", VNone)] in
  typed_row row1 (NFloat S754_nan) (NInt 63000000) false
  /\ typed_row row2 (NFloat S754_nan) (NInt 63000000) false
  /\ exists s : release_strategy,
      categorize_release_strategy row1 = Ok s
      /\ categorize_release_strategy row2 = Ok s.
Proof.
  intros row1 row2.
  assert (H1 : typed_row row1 (NFloat S754_nan) (NInt 63000000) false)
    by (repeat split; reflexivity).
  assert (H2 : typed_row row2 (NFloat S754_nan) (NInt 63000000) false)
    by (repeat split; reflexivity).
  split; [exact H1 | split; [exact H2|]].
  exact (categorize_release_strategy_pure_total row1 row2 _ _ _ H1 H2).
Defined.

End Categorize.

(* ================================================================== *)
(** * The movie record of collect_year_data *)
(* ================================================================== *)

Section MovieData.
Import Collector.









End MovieData.

(* ================================================================== *)
(** * Calls to the service *)
(* ================================================================== *)

Section Extends.

Lemma extends_ret {A} (a : A) : extends (ret a).
Proof. intro log. exists []. symmetry. apply app_nil_r. Qed.

Lemma extends_lift {A} (r : result A) : extends (lift r).
Proof. intro log. exists []. symmetry. apply app_nil_r. Qed.

Lemma extends_requests_get (net : network) (r : request) :
  extends (requests_get net r).
Proof. intro log. exists [r]. reflexivity. Qed.

Lemma extends_bind {A B} (c : M A) (k : A -> M B) :
  extends c -> (forall a, extends (k a)) -> extends (bind c k).
Proof.
  intros Hc Hk log. unfold bind, calls.
  destruct (Hc log) as [more Hmore]. unfold calls in Hmore.
  destruct (c log) as [[a|e] log']; simpl in Hmore; subst log'.
  - destruct (Hk a (log ++ more)) as [more' Hmore']. unfold calls in Hmore'.
    exists (more ++ more'). rewrite Hmore'. symmetry. apply app_assoc.
  - exists more. reflexivity.
Qed.

Lemma starts_with_requests_get (net : network) (r : request) :
  starts_with r (requests_get net r).
Proof. intro log. exists []. reflexivity. Qed.

Lemma starts_with_bind {A B} (r : request) (c : M A) (k : A -> M B) :
  starts_with r c -> (forall a, extends (k a)) -> starts_with r (bind c k).
Proof.
  intros Hc Hk log. unfold bind, calls.
  destruct (Hc log) as [more Hmore]. unfold calls in Hmore.
  destruct (c log) as [[a|e] log']; simpl in Hmore; subst log'.
  - destruct (Hk a (log ++ r :: more)) as [more' Hmore'].
    unfold calls in Hmore'. exists (more ++ more'). rewrite Hmore'.
    rewrite <- app_assoc. reflexivity.
  - exists more. reflexivity.
Qed.

Lemma starts_with_bind_lift {A B} (r : request) (a : A) (k : A -> M B) :
  starts_with r (k a) -> starts_with r (bind (lift (Ok a)) k).
Proof. intros H log. exact (H log). Qed.

Lemma starts_with_calls {A} (r : request) (c : M A) :
  starts_with r c -> exists more, calls (c []) = r :: more.
Proof. intro H. exact (H []). Qed.

End Extends.

Create HintDb calls.
#[local] Hint Resolve extends_ret extends_lift extends_requests_get : calls.

Ltac prove_extends :=
  repeat first
    [ apply extends_ret
    | apply extends_lift
    | apply extends_requests_get
    | apply extends_bind; [|intro]
    | match goal with
      | |- extends (match ?x with _ => _ end) => destruct x
      | |- extends (if ?b then _ else _) => destruct b
      end
    | solve [auto with calls] ].

Section CollectorCalls.
Import Collector.
Variable net : network.
Variable self : config.

Lemma extends_call (p : endpoint) : extends (call net self p).
Proof. apply extends_requests_get. Qed.

Hint Resolve extends_call : calls.

Lemma starts_with_call (p : endpoint) :
  starts_with (request_for self p) (call net self p).
Proof. apply starts_with_requests_get. Qed.

Lemma extends_get_movie_details (movie_id : value) :
  extends (get_movie_details net self movie_id).
Proof. unfold get_movie_details. prove_extends. Qed.

Lemma extends_discover_movies (year page : Z) :
  extends (discover_movies net self year page).
Proof. unfold discover_movies. prove_extends. Qed.

Hint Resolve extends_get_movie_details extends_discover_movies : calls.

Lemma extends_collect_movies (movies : list value) (movies_data : list dict) :
  extends (collect_movies net self movies movies_data).
Proof.
  revert movies_data.
  induction movies as [|movie rest IH]; intro movies_data;
    cbn [collect_movies]; prove_extends; apply IH.
Qed.

Hint Resolve extends_collect_movies : calls.

Lemma extends_collect_pages (year : Z) (pages : list Z) (movies_data : list dict) :
  extends (collect_pages net self year pages movies_data).
Proof.
  revert movies_data.
  induction pages as [|page rest IH]; intro movies_data;
    cbn [collect_pages]; prove_extends; apply IH.
Qed.

Lemma extends_collect_years (ys : list Z) (all_movies : list dict) :
  extends (collect_years net self ys all_movies).
Proof.
  revert all_movies.
  induction ys as [|year rest IH]; intro all_movies;
    cbn [collect_years]; prove_extends;
    first [apply IH | apply extends_collect_pages].
Qed.

(** Whatever the configuration, collection starts with the call for the
    list of genres, which carries the credential as it was read. *)
Lemma main_first_call :
  exists more,
    calls (Collector.main net self []) = request_for self GenreList :: more.
Proof.
  apply starts_with_calls. unfold Collector.main, collect_all.
  apply starts_with_bind; [|intro; apply extends_collect_years].
  unfold get_genres.
  apply starts_with_bind; [apply starts_with_call | intro; prove_extends].
Qed.

(** A failed call for the details of a film gives [None]; it is issued
    once. *)
Lemma get_movie_details_failed (movie_id : value) (log : list request) :
  net (Datatypes.length log) (request_for self (MovieDetails movie_id)) = Failed ->
  get_movie_details net self movie_id log
  = (Ok VNone, log ++ [request_for self (MovieDetails movie_id)]).
Proof.
  intro H. unfold get_movie_details, bind, call, requests_get.
  fold (request_for self (MovieDetails movie_id)). rewrite H. reflexivity.
Qed.

Lemma discover_movies_failed (year page : Z) (log : list request) :
  net (Datatypes.length log) (request_for self (Discover year page)) = Failed ->
  discover_movies net self year page log
  = (Ok VNone, log ++ [request_for self (Discover year page)]).
Proof.
  intro H. unfold discover_movies, bind, call, requests_get.
  fold (request_for self (Discover year page)). rewrite H. reflexivity.
Qed.

(** The film whose details could not be fetched is left out, and the
    loop goes on with the next film. *)
Lemma collect_movies_failed movie movie_id rest movies_data log :
  Py.getitem movie "id" = Ok movie_id ->
  net (Datatypes.length log) (request_for self (MovieDetails movie_id)) = Failed ->
  collect_movies net self (movie :: rest) movies_data log
  = collect_movies net self rest movies_data
      (log ++ [request_for self (MovieDetails movie_id)]).
Proof.
  intros Hid H. cbn [collect_movies]. unfold bind at 1, lift at 1.
  rewrite Hid. unfold bind at 1.
  rewrite (get_movie_details_failed _ _ H). reflexivity.
Qed.

(** The page that could not be fetched ends the loop over the pages of
    the year: its [break]. *)
Lemma collect_pages_failed year page pages movies_data log :
  net (Datatypes.length log) (request_for self (Discover year page)) = Failed ->
  collect_pages net self year (page :: pages) movies_data log
  = (Ok movies_data, log ++ [request_for self (Discover year page)]).
Proof.
  intro H. cbn [collect_pages]. unfold bind at 1.
  rewrite (discover_movies_failed _ _ _ H). reflexivity.
Qed.

(** And the loop over the years goes on with the next year. *)
Lemma collect_years_failed year ys all_movies log :
  net (Datatypes.length log) (request_for self (Discover year 1)) = Failed ->
  collect_years net self (year :: ys) all_movies log
  = collect_years net self ys all_movies
      (log ++ [request_for self (Discover year 1)]).
Proof.
  intro H. cbn [collect_years]. unfold bind at 1, collect_year_data.
  change (Py.range 1 (max_pages_per_year + 1)) with [1; 2; 3; 4; 5].
  rewrite (collect_pages_failed _ _ _ _ _ H). rewrite app_nil_r.
  reflexivity.
Qed.

End CollectorCalls.

Section EnricherCalls.
Import Enricher.
Variable net : network.
Variable self : config.

Lemma extends_get_watch_providers (movie_id : value) :
  extends (get_watch_providers net self movie_id).
Proof. unfold get_watch_providers, call. prove_extends. Qed.

Hint Resolve extends_get_watch_providers : calls.

Lemma extends_enrich_rows (rows : list dict) :
  extends (enrich_rows net self rows).
Proof.
  induction rows as [|row rest IH]; cbn [enrich_rows]; prove_extends; apply IH.
Qed.

Lemma extends_enrich_dataset (df : list dict) :
  extends (enrich_dataset net self df).
Proof. unfold enrich_dataset. prove_extends. apply extends_enrich_rows. Qed.

(** The columns that are initialised do not touch [movie_id]. *)
Lemma lookup_init_cols (row : dict) :
  Py.lookup "movie_id" (init_cols row) = Py.lookup "movie_id" row.
Proof.
  unfold init_cols. cbn [streaming_cols removelast fold_left].
  rewrite !lookup_set_other by discriminate. reflexivity.
Qed.

Lemma starts_with_get_watch_providers (movie_id : value) :
  starts_with (request_for self (WatchProviders movie_id))
              (get_watch_providers net self movie_id).
Proof.
  unfold get_watch_providers.
  apply starts_with_bind; [apply starts_with_requests_get | intro; prove_extends].
Qed.

(** A failed call for the providers of a film gives the empty payload;
    it is issued once. *)
Lemma get_watch_providers_failed (movie_id : value) (log : list request) :
  net (Datatypes.length log) (request_for self (WatchProviders movie_id))
  = Failed ->
  get_watch_providers net self movie_id log
  = (Ok (VDict []), log ++ [request_for self (WatchProviders movie_id)]).
Proof.
  intro H. unfold get_watch_providers, bind, call, requests_get.
  fold (request_for self (WatchProviders movie_id)). rewrite H. reflexivity.
Qed.

(** Updating a row writes the streaming flag of the parsed record and
    leaves the revenue and the budget as they are. *)
Lemma update_available_on_streaming (row : dict) (p : parsed) :
  Py.lookup "available_on_streaming" (update row p)
  = Some (VBool (available_on_streaming p)).
Proof.
  unfold update, items. cbn [fold_left fst snd].
  rewrite !lookup_set_other by discriminate. apply lookup_set_same.
Qed.

Lemma update_keeps_revenue_budget (row : dict) (p : parsed) :
  Py.lookup "revenue" (update row p) = Py.lookup "revenue" row
  /\ Py.lookup "budget" (update row p) = Py.lookup "budget" row.
Proof.
  unfold update, items. cbn [fold_left fst snd].
  split; rewrite !lookup_set_other by discriminate; reflexivity.
Qed.

(** The row whose providers could not be fetched gets the flags of the
    empty payload, and the loop goes on with the next row. *)
Lemma enrich_rows_failed row movie_id rest log :
  Py.lookup "movie_id" row = Some movie_id ->
  net (Datatypes.length log) (request_for self (WatchProviders movie_id))
  = Failed ->
  enrich_rows net self (row :: rest) log
  = and_then (cons (update row no_providers))
      (enrich_rows net self rest
         (log ++ [request_for self (WatchProviders movie_id)])).
Proof.
  intros Hid H. cbn [enrich_rows]. unfold bind at 1, lift at 1.
  cbn [Py.getitem]. rewrite Hid. unfold bind at 1.
  rewrite (get_watch_providers_failed _ _ H).
  unfold bind at 1, lift at 1. cbn [parse_providers Py.is_in Py.has_key Py.lookup rbind].
  fold no_providers. unfold bind, and_then, ret.
  destruct (enrich_rows net self rest _) as [[rows|e] log']; reflexivity.
Qed.

(** With a table that has a first row, enrichment starts with the call
    for the providers of that row, which carries the credential as it
    was read. *)
Lemma enricher_main_first_call row rest movie_id :
  Py.lookup "movie_id" row = Some movie_id ->
  exists more,
    calls (Enricher.main net self (Some (row :: rest)) [])
    = request_for self (WatchProviders movie_id) :: more.
Proof.
  intro Hid. apply starts_with_calls. unfold Enricher.main, enrich_dataset.
  apply starts_with_bind; [|intro; prove_extends].
  apply starts_with_bind; [|intro; prove_extends].
  cbn [map enrich_rows Py.getitem]. rewrite lookup_init_cols, Hid.
  apply starts_with_bind_lift.
  apply starts_with_bind.
  - apply starts_with_get_watch_providers.
  - intro providers. prove_extends. apply extends_enrich_rows.
Qed.

(** Without its input table, [main] returns without a call. *)
Lemma enricher_main_no_file :
  Enricher.main net self None [] = (Ok None, []).
Proof. reflexivity. Qed.

End EnricherCalls.

Section ProberCalls.
Variable net : network.

(** Without a credential the prober stops before its first call. *)
Lemma prober_main_without_key (base : option string) (tests : M unit) :
  Prober.main net {| TMDB_API_KEY := None; TMDB_BASE_URL := base |} tests []
  = (Ok tt, []).
Proof. reflexivity. Qed.

End ProberCalls.

(* ================================================================== *)
(** * The credential *)
(* ================================================================== *)

(** C2. With the credential absent from the environment, neither the
    collector nor the enricher stops before its first call: the collector
    issues the call for the list of genres and the enricher, given a table
    with a first row, the call for the providers of that row, both without
    a credential.  The prober, on the same environment, returns before any
    call. *)
Theorem missing_credential_is_not_fatal
  (net : network) (base : option string)
  (row : dict) (rest : list dict) (movie_id : value) :
  Py.lookup "movie_id" row = Some movie_id ->
  let env := {| TMDB_API_KEY := None; TMDB_BASE_URL := base |} in
  (exists more,
     calls (Collector.main net env [])
     = {| req_base := base; req_path := GenreList; req_key := None |} :: more)
  /\ (exists more,
        calls (Enricher.main net env (Some (row :: rest)) [])
        = {| req_base := base; req_path := WatchProviders movie_id;
             req_key := None |} :: more)
  /\ (forall tests, Prober.main net env tests [] = (Ok tt, [])).
Proof.
  intros Hid env. split; [|split].
  - exact (main_first_call net env).
  - exact (enricher_main_first_call net env row rest movie_id Hid).
  - intro tests. apply prober_main_without_key.
Qed.

Lemma missing_credential_is_not_fatal_witness :
  let net : network := fun _ _ => Failed in
  let base := Some "https://api.themoviedb.org/3" in
  let row := [("movie_id", Py.int 550); ("title", VStr "Fight Club")] in
  let env := {| TMDB_API_KEY := None; TMDB_BASE_URL := base |} in
  Py.lookup "movie_id" row = Some (Py.int 550)
  /\ (exists more,
        calls (Collector.main net env [])
        = {| req_base := base; req_path := GenreList; req_key := None |} :: more)
  /\ (exists more,
        calls (Enricher.main net env (Some [row]) [])
        = {| req_base := base; req_path := WatchProviders (Py.int 550);
             req_key := None |} :: more)
  /\ (forall tests, Prober.main net env tests [] = (Ok tt, [])).
Proof.
  intros net base row env. split; [reflexivity|].
  exact (missing_credential_is_not_fatal net base row [] (Py.int 550) eq_refl).
Defined.

(** What the two scripts do when the service refuses every call, as it
    does without a credential.  The collector asks for the genres and for
    the first page of each year, collects nothing, and its table, having
    no rows, raises on [df['budget']]; the enricher writes its table with
    every flag false. *)
Lemma collector_without_credential :
  let net : network := fun _ _ => Failed in
  let env := {| TMDB_API_KEY := None;
                TMDB_BASE_URL := Some "https://api.themoviedb.org/3" |} in
  Collector.main net env []
  = (Ok [],
     map (request_for env)
         [GenreList; Discover 2019 1; Discover 2020 1; Discover 2021 1;
          Discover 2022 1; Discover 2023 1; Discover 2024 1])
  /\ Collector.main_table year_2019 [] = Raise (KeyError "budget").
Proof. split; reflexivity. Qed.

Lemma enricher_without_credential :
  let net : network := fun _ _ => Failed in
  let env := {| TMDB_API_KEY := None;
                TMDB_BASE_URL := Some "https://api.themoviedb.org/3" |} in
  let row := [("movie_id", Py.int 550);
              ("budget", Py.int 63000000);
              ("revenue", Py.int 100853753)] in
  Enricher.main net env (Some [row]) []
  = (Ok (Some [row ++ Enricher.items no_providers
                   ++ [("release_strategy", VStr "Theatrical Only")]]),
     [request_for env (WatchProviders (Py.int 550))]).
Proof. vm_compute. reflexivity. Qed.

(* ================================================================== *)
(** * Failed calls *)
(* ================================================================== *)

(** The claim as it is written does not hold for a page of the discovery:
    when the call for page 1 of a year fails, page 2 is not asked for,
    though the service would have answered. *)
Lemma discovery_failure_ends_the_year :
  let page :=
    VDict [("page", Py.int 2);
           ("results", VList [VDict [("id", Py.int 550)]]);
           ("total_pages", Py.int 2)] in
  let net : network :=
    fun n _ => match n with O => Failed | _ => Body page end in
  let self := {| TMDB_API_KEY := Some "k";
                 TMDB_BASE_URL := Some "https://api.themoviedb.org/3" |} in
  net 1%nat (request_for self (Discover 2019 2)) = Body page
  /\ Collector.collect_year_data net self 2019 5 []
     = (Ok [], [request_for self (Discover 2019 1)]).
Proof. split; reflexivity. Qed.

(** C3, amended.  A call that fails is caught, gives no data and is not
    issued again: a failed call for the details of a film leaves the film
    out, and collection goes on with the next film of the page; a failed
    call for the providers gives the empty payload, which parses to all
    flags false, and enrichment goes on with the next row; a failed call
    for a page of the discovery ends the pages of that year, and
    collection goes on with the next year. *)
Theorem failed_call_is_no_data
  (net : network) (self : config) (log : list request) :
  (forall r, net (Datatypes.length log) r = Failed) ->
  (forall movie movie_id rest movies_data,
     Py.getitem movie "id" = Ok movie_id ->
     Collector.collect_movies net self (movie :: rest) movies_data log
     = Collector.collect_movies net self rest movies_data
         (log ++ [request_for self (MovieDetails movie_id)]))
  /\ (forall row movie_id rest,
        Py.lookup "movie_id" row = Some movie_id ->
        Enricher.get_watch_providers net self movie_id log
        = (Ok (VDict []), log ++ [request_for self (WatchProviders movie_id)])
        /\ Enricher.parse_providers (VDict []) = Ok no_providers
        /\ Enricher.enrich_rows net self (row :: rest) log
           = and_then (cons (Enricher.update row no_providers))
               (Enricher.enrich_rows net self rest
                  (log ++ [request_for self (WatchProviders movie_id)])))
  /\ (forall year page pages movies_data,
        Collector.collect_pages net self year (page :: pages) movies_data log
        = (Ok movies_data, log ++ [request_for self (Discover year page)]))
  /\ (forall year ys all_movies,
        Collector.collect_years net self (year :: ys) all_movies log
        = Collector.collect_years net self ys all_movies
            (log ++ [request_for self (Discover year 1)])).
Proof.
  intro Hfail. split; [|split; [|split]].
  - intros movie movie_id rest movies_data Hid.
    apply collect_movies_failed; [exact Hid | apply Hfail].
  - intros row movie_id rest Hid. split; [|split].
    + apply get_watch_providers_failed. apply Hfail.
    + reflexivity.
    + apply enrich_rows_failed; [exact Hid | apply Hfail].
  - intros year page pages movies_data.
    apply collect_pages_failed. apply Hfail.
  - intros year ys all_movies.
    apply collect_years_failed. apply Hfail.
Qed.

Lemma failed_call_is_no_data_witness :
  let net : network := fun _ _ => Failed in
  let self := {| TMDB_API_KEY := Some "k";
                 TMDB_BASE_URL := Some "https://api.themoviedb.org/3" |} in
  (forall r, net (Datatypes.length (@nil request)) r = Failed)
  /\ Collector.collect_movies net self
       [VDict [("id", Py.int 550)]; VDict [("id", Py.int 551)]] [] []
     = Collector.collect_movies net self [VDict [("id", Py.int 551)]] []
         [request_for self (MovieDetails (Py.int 550))]
  /\ Collector.collect_years net self [2019; 2020] [] []
     = Collector.collect_years net self [2020] []
         [request_for self (Discover 2019 1)].
Proof.
  intros net self.
  assert (Hfail : forall r, net (Datatypes.length (@nil request)) r = Failed)
    by reflexivity.
  destruct (failed_call_is_no_data net self [] Hfail)
    as [Hmovie [_ [_ Hyear]]].
  split; [exact Hfail | split].
  - exact (Hmovie (VDict [("id", Py.int 550)]) (Py.int 550)
             [VDict [("id", Py.int 551)]] [] eq_refl).
  - exact (Hyear 2019 [2020] []).
Defined.

(* ================================================================== *)
(** * The table of the collector *)
(* ================================================================== *)

Section TableLemmas.
Import Collector.

Variable to_datetime_year : list value -> result (list value).
Hypothesis to_datetime_year_length :
  forall column ys,
    to_datetime_year column = Ok ys ->
    Datatypes.length ys = Datatypes.length column.

Lemma keep_positive (r : movie) :
  keep r = true <-> 0 < budget r /\ 0 < revenue r.
Proof. unfold keep. rewrite andb_true_iff, !Z.ltb_lt. reflexivity. Qed.

(** The three new columns sit next to the rows they were computed
    from: no row is lost or added when one cell is given per row. *)
Lemma add_columns_rows (rows : list movie) (ys : list value) :
  Datatypes.length ys = Datatypes.length rows ->
  map row (add_columns rows ys) = rows.
Proof.
  unfold add_columns. revert ys.
  induction rows as [|r rows IH]; intros [|y ys] Hlen;
    try discriminate Hlen; [reflexivity|].
  cbn [combine map row fst]. f_equal. apply IH.
  injection Hlen as Hlen. exact Hlen.
Qed.

Lemma add_columns_roi (rows : list movie) (ys : list value) (r : retained) :
  In r (add_columns rows ys) ->
  roi r = roi_of (row r) /\ profit r = profit_of (row r).
Proof.
  unfold add_columns. rewrite in_map_iff.
  intros [[r0 y] [<- _]]. split; reflexivity.
Qed.

Lemma main_table_inv (df : list movie) (out : list retained) :
  main_table to_datetime_year df = Ok out ->
  exists ys,
    Datatypes.length ys = Datatypes.length (filter keep df)
    /\ out = add_columns (filter keep df) ys.
Proof.
  unfold main_table. destruct df as [|r0 df]; [discriminate|].
  intro H. apply rbind_ok in H. destruct H as [ys [Hys H]].
  injection H as <-. exists ys. split; [|reflexivity].
  apply to_datetime_year_length in Hys.
  rewrite length_map in Hys. exact Hys.
Qed.

(** The difference of two positive [int64] cells does not wrap. *)
Lemma wrap64_difference (a b : Z) :
  int64 a -> int64 b -> 0 < a -> 0 < b -> wrap64 (a - b) = a - b.
Proof.
  unfold int64, wrap64.
  change (2 ^ 63) with 9223372036854775808.
  change (2 ^ 64) with 18446744073709551616.
  intros Ha Hb Ha0 Hb0. rewrite Z.mod_small; lia.
Qed.

(** C6. Every row of the table the collector writes has a budget over 0
    and a revenue over 0; the rows of the table are the rows of [df]
    that have both, in their order: a row without one of the two is
    dropped, and nothing else removes a row or brings one back. *)
Theorem main_table_retained (df : list movie) (out : list retained) :
  main_table to_datetime_year df = Ok out ->
  (forall r, In r out -> 0 < budget (row r) /\ 0 < revenue (row r))
  /\ map row out = filter keep df.
Proof.
  intro H. apply main_table_inv in H. destruct H as [ys [Hlen ->]].
  assert (Hrows : map row (add_columns (filter keep df) ys) = filter keep df)
    by (apply add_columns_rows; exact Hlen).
  split; [|exact Hrows].
  intros r Hin. apply keep_positive.
  apply (in_map row) in Hin. rewrite Hrows in Hin.
  apply filter_In in Hin. exact (proj2 Hin).
Qed.


End TableLemmas.

Lemma year_2019_length (column ys : list value) :
  year_2019 column = Ok ys ->
  Datatypes.length ys = Datatypes.length column.
Proof.
  unfold year_2019. intro H. injection H as <-. apply length_map.
Qed.

Lemma main_table_three_movies :
  Collector.main_table year_2019 three_movies = Ok two_retained.
Proof. vm_compute. reflexivity. Qed.

Lemma three_movies_int64 :
  Forall (fun r => Collector.int64 (Collector.budget r)
                   /\ Collector.int64 (Collector.revenue r))
         three_movies.
Proof.
  assert (H : forall z, 0 <= z < 1000000000 -> Collector.int64 z).
  { intros z Hz. unfold Collector.int64.
    change (2 ^ 63) with 9223372036854775808. lia. }
  unfold three_movies.
  repeat (constructor; [split; apply H; simpl; lia|]). constructor.
Qed.

Lemma main_table_retained_witness :
  Collector.main_table year_2019 three_movies = Ok two_retained
  /\ (forall r, In r two_retained ->
        0 < Collector.budget (Collector.row r)
        /\ 0 < Collector.revenue (Collector.row r))
  /\ map Collector.row two_retained = filter Collector.keep three_movies.
Proof.
  split; [exact main_table_three_movies|].
  exact (main_table_retained year_2019 year_2019_length
           three_movies two_retained main_table_three_movies).
Defined.


(** The value of the cell is a binary64 number: for a budget of 30,000,000
    and a revenue of 40,000,000 it is 4691249611844266 / 2^47, the float
    nearest to the product of 100 and the float nearest to 1/3, and not
    the rational 100/3. *)
Lemma roi_is_a_float :
  let r := {| Collector.cells := [];
              Collector.budget := 30000000;
              Collector.revenue := 40000000 |} in
  F64.to_Q (Collector.roi_of r) = Some (4691249611844266 # 140737488355328)%Q
  /\ ~ (4691249611844266 # 140737488355328 == 100 # 3)%Q.
Proof.
  split.
  - vm_compute. reflexivity.
  - unfold Qeq. vm_compute. discriminate.
Qed.

(** A table without rows has no [budget] column. *)
Lemma main_table_empty :
  Collector.main_table year_2019 [] = Raise (KeyError "budget").
Proof. reflexivity. Qed.

(* ================================================================== *)
(** * Further properties: the movie record *)
(* ================================================================== *)

Section MovieRecord.
Import Collector.

Lemma pluck_inv (k : string) (v x : value) :
  pluck k v = Ok x ->
  exists gs xs,
    Py.iter v = Ok gs
    /\ mapM (fun g => Py.getitem g k) gs = Ok xs
    /\ x = VList xs.
Proof.
  unfold pluck. intro H.
  apply rbind_ok in H. destruct H as [gs [Hgs H]].
  apply rbind_ok in H. destruct H as [xs [Hxs H]].
  injection H as <-. exists gs, xs. auto.
Qed.

Lemma mapM_length {A B} (f : A -> result B) (l : list A) (ys : list B) :
  mapM f l = Ok ys -> Datatypes.length ys = Datatypes.length l.
Proof.
  revert ys. induction l as [|x t IH]; simpl; intros ys H.
  - injection H as <-. reflexivity.
  - apply rbind_ok in H. destruct H as [y [_ H]].
    apply rbind_ok in H. destruct H as [ys' [Hys H]].
    injection H as <-. simpl. f_equal. apply IH. exact Hys.
Qed.

(** What a record that was built looks like: the response is an object,
    eleven cells are read with [get], and the six others are the lists
    that could be read from it. *)
Lemma movie_data_shape (movie_id details : value) (row : dict) :
  movie_data movie_id details = Ok row ->
  exists d genre_ids genres primary top3 companies countries,
    details = VDict d
    /\ pluck "id" (Py.dict_get d "genres" (VList [])) = Ok genre_ids
    /\ pluck "name" (Py.dict_get d "genres" (VList [])) = Ok genres
    /\ primary_genre (VDict d) = Ok primary
    /\ Py.take3 (Py.dict_get d "production_companies" (VList [])) = Ok top3
    /\ pluck "name" top3 = Ok companies
    /\ pluck "iso_3166_1" (Py.dict_get d "production_countries" (VList []))
       = Ok countries
    /\ row =
       [ ("movie_id", movie_id);
         ("title", Py.dict_get d "title" VNone);
         ("release_date", Py.dict_get d "release_date" VNone);
         ("budget", Py.dict_get d "budget" (Py.int 0));
         ("revenue", Py.dict_get d "revenue" (Py.int 0));
         ("runtime", Py.dict_get d "runtime" VNone);
         ("vote_average", Py.dict_get d "vote_average" VNone);
         ("vote_count", Py.dict_get d "vote_count" VNone);
         ("popularity", Py.dict_get d "popularity" VNone);
         ("original_language", Py.dict_get d "original_language" VNone);
         ("genre_ids", genre_ids);
         ("genres", genres);
         ("primary_genre", primary);
         ("production_companies", companies);
         ("production_countries", countries);
         ("status", Py.dict_get d "status" VNone);
         ("tagline", Py.dict_get d "tagline" VNone) ].
Proof.
  destruct details as [| | | | |d]; try discriminate.
  unfold movie_data. cbn [Py.get rbind]. intro H.
  apply rbind_ok in H. destruct H as [genre_ids [Hids H]].
  apply rbind_ok in H. destruct H as [genres [Hgenres H]].
  apply rbind_ok in H. destruct H as [primary [Hprimary H]].
  apply rbind_ok in H. destruct H as [top3 [Htop3 H]].
  apply rbind_ok in H. destruct H as [companies [Hcompanies H]].
  apply rbind_ok in H. destruct H as [countries [Hcountries H]].
  injection H as <-.
  exists d, genre_ids, genres, primary, top3, companies, countries.
  repeat (split; [assumption || reflexivity|]). reflexivity.
Qed.

Lemma take3_at_most_three (v top3 : value) (gs : list value) :
  Py.take3 v = Ok top3 -> Py.iter top3 = Ok gs ->
  (Datatypes.length gs <= 3)%nat.
Proof.
  destruct v as [| | |s|l|d]; try discriminate; intro H; injection H as <-;
    cbn [Py.iter]; intro H; injection H as <-.
  - unfold Py.chars. rewrite length_map.
    destruct s as [|a [|b [|c s]]]; simpl; lia.
  - destruct l as [|a [|b [|c l]]]; simpl; lia.
Qed.

(** X1. Every record the collector builds has the same seventeen columns
    in the same order; its [movie_id] is the identifier the details were
    fetched for, and its [budget] and [revenue] are those of the response,
    or 0 when the response has none. *)
Theorem movie_data_columns (movie_id details : value) (row : dict) :
  movie_data movie_id details = Ok row ->
  map fst row = movie_columns
  /\ Py.lookup "movie_id" row = Some movie_id
  /\ exists d,
      details = VDict d
      /\ Py.lookup "budget" row = Some (Py.dict_get d "budget" (Py.int 0))
      /\ Py.lookup "revenue" row = Some (Py.dict_get d "revenue" (Py.int 0)).
Proof.
  intro H. apply movie_data_shape in H.
  destruct H as (d & gi & g & pg & t3 & pc & pn & -> & _ & _ & _ & _ & _ & _ & ->).
  split; [reflexivity|]. split; [reflexivity|].
  exists d. split; [reflexivity|]. split; reflexivity.
Qed.

Lemma movie_data_columns_witness :
  let details := VDict [("id", Py.int 550); ("title", VStr "Fight Club");
                        ("revenue", Py.int 100853753)] in
  exists row,
    movie_data (Py.int 550) details = Ok row
    /\ map fst row = movie_columns
    /\ Py.lookup "movie_id" row = Some (Py.int 550)
    /\ Py.lookup "budget" row = Some (Py.int 0)
    /\ Py.lookup "revenue" row = Some (Py.int 100853753).
Proof.
  intro details. eexists. split; [reflexivity|].
  match goal with
  | |- map fst ?row = _ /\ _ =>
      destruct (movie_data_columns (Py.int 550) details row eq_refl)
        as [Hcols [Hid _]]
  end.
  split; [exact Hcols|]. split; [exact Hid|]. split; reflexivity.
Defined.

(** X2. The [production_companies] cell of a record holds at most three
    names: those of the first three companies of the response.  The
    list is cut before the names are read, so a company after the third
    is not looked at. *)
Theorem movie_data_top_three (movie_id details : value) (row : dict) :
  movie_data movie_id details = Ok row ->
  exists names,
    Py.lookup "production_companies" row = Some (VList names)
    /\ (Datatypes.length names <= 3)%nat
    /\ forall d cs,
        details = VDict d ->
        Py.lookup "production_companies" d = Some (VList cs) ->
        mapM (fun c => Py.getitem c "name") (firstn 3 cs) = Ok names.
Proof.
  intro H. apply movie_data_shape in H.
  destruct H as (d & gi & g & pg & t3 & pc & pn
                 & -> & _ & _ & _ & Htop3 & Hnames & _ & ->).
  apply pluck_inv in Hnames. destruct Hnames as (gs & names & Hgs & Hmap & ->).
  exists names. split; [reflexivity|]. split.
  - rewrite (mapM_length _ _ _ Hmap).
    exact (take3_at_most_three _ _ _ Htop3 Hgs).
  - intros d' cs Hd Hcs. injection Hd as <-.
    unfold Py.dict_get in Htop3. rewrite Hcs in Htop3.
    cbn [Py.take3] in Htop3. injection Htop3 as <-.
    cbn [Py.iter] in Hgs. injection Hgs as <-. exact Hmap.
Qed.

Lemma movie_data_top_three_witness :
  let company n := VDict [("name", VStr n)] in
  let details :=
    VDict [("id", Py.int 550);
           ("production_companies",
            VList [company "Regency Enterprises"; company "Fox 2000 Pictures";
                   company "Taurus Film"; VDict [("id", Py.int 4)]])] in
  exists row names,
    movie_data (Py.int 550) details = Ok row
    /\ Py.lookup "production_companies" row = Some (VList names)
    /\ (Datatypes.length names <= 3)%nat.
Proof.
  intros company details. eexists.
  match goal with
  | |- exists names, movie_data ?i ?d = Ok ?row /\ _ =>
      destruct (movie_data_top_three i d row eq_refl)
        as [names [Hlookup [Hlen _]]]
  end.
  exists names. split; [reflexivity|]. split; assumption.
Defined.

(** X3. In a record that was built, [primary_genre] is the first name of
    the [genres] cell, and [None] when that list is empty. *)
Theorem movie_data_primary_is_first_genre
  (movie_id details : value) (row : dict) :
  movie_data movie_id details = Ok row ->
  exists names,
    Py.lookup "genres" row = Some (VList names)
    /\ Py.lookup "primary_genre" row
       = Some (match names with [] => VNone | name :: _ => name end).
Proof.
  intro H. apply movie_data_shape in H.
  destruct H as (d & gi & g & pg & t3 & pc & pn
                 & -> & _ & Hgenres & Hprimary & _ & _ & _ & ->).
  apply pluck_inv in Hgenres. destruct Hgenres as (gs & names & Hgs & Hmap & ->).
  exists names. split; [reflexivity|].
  cbn [Py.lookup String.eqb Ascii.eqb Bool.eqb]. f_equal.
  unfold primary_genre, Py.get, Py.dict_get in Hprimary.
  unfold Py.dict_get in Hgs. cbn [rbind] in Hprimary.
  destruct (Py.lookup "genres" d) as [v|].
  - destruct v as [| | |s|l|kvs]; try discriminate Hgs;
      cbn [Py.iter] in Hgs; injection Hgs as <-.
    + destruct s as [|c s].
      * injection Hmap as <-. injection Hprimary as <-. reflexivity.
      * discriminate Hmap.
    + destruct l as [|g0 l].
      * injection Hmap as <-. injection Hprimary as <-. reflexivity.
      * cbn [mapM] in Hmap.
        apply rbind_ok in Hmap. destruct Hmap as [name [Hname Hmap]].
        apply rbind_ok in Hmap. destruct Hmap as [rest [_ Hmap]].
        injection Hmap as <-.
        destruct g0 as [| | | | |dg]; try discriminate Hname.
        cbn [Py.getitem] in Hname. cbn [Py.truthy Py.first rbind] in Hprimary.
        unfold Py.dict_get in Hprimary.
        destruct (Py.lookup "name" dg) as [n|]; [|discriminate Hname].
        injection Hname as <-. injection Hprimary as <-. reflexivity.
    + destruct kvs as [|kv kvs].
      * injection Hmap as <-. injection Hprimary as <-. reflexivity.
      * discriminate Hmap.
  - cbn [Py.iter] in Hgs. injection Hgs as <-. injection Hmap as <-.
    injection Hprimary as <-. reflexivity.
Qed.

Lemma movie_data_primary_is_first_genre_witness :
  let details :=
    VDict [("id", Py.int 550);
           ("genres", VList [VDict [("id", Py.int 18); ("name", VStr "Drama")];
                             VDict [("id", Py.int 53);
                                    ("name", VStr "Thriller")]])] in
  exists row,
    movie_data (Py.int 550) details = Ok row
    /\ Py.lookup "genres" row = Some (VList [VStr "Drama"; VStr "Thriller"])
    /\ Py.lookup "primary_genre" row = Some (VStr "Drama").
Proof.
  intro details. eexists. split; [reflexivity|].
  match goal with
  | |- Py.lookup _ ?row = _ /\ _ =>
      destruct (movie_data_primary_is_first_genre (Py.int 550) details row
                  eq_refl) as [names [Hgenres Hprimary]]
  end.
  assert (Hnames : names = [VStr "Drama"; VStr "Thriller"]).
  { cbv in Hgenres. injection Hgenres as <-. reflexivity. }
  subst names. split; [exact Hgenres | exact Hprimary].
Defined.

End MovieRecord.

(* ================================================================== *)
(** * Further properties: the loops of the collector *)
(* ================================================================== *)

Lemma bind_ok {A B} (c : M A) (k : A -> M B) log b log' :
  bind c k log = (Ok b, log') ->
  exists a log1, c log = (Ok a, log1) /\ k a log1 = (Ok b, log').
Proof.
  unfold bind. destruct (c log) as [[a|e] log1]; intro H.
  - exists a, log1. split; [reflexivity | exact H].
  - discriminate H.
Qed.

Lemma lift_ok {A} (r : result A) log a log' :
  lift r log = (Ok a, log') -> r = Ok a /\ log' = log.
Proof. unfold lift. intro H. injection H as -> <-. split; reflexivity. Qed.

Section Quiet.

Lemma discoveries_app (l l' : list request) :
  discoveries (l ++ l') = discoveries l ++ discoveries l'.
Proof. apply flat_map_app. Qed.

Lemma quiet_ret {A} (a : A) : quiet (ret a).
Proof. intro log. exists []. split; [symmetry; apply app_nil_r | reflexivity]. Qed.

Lemma quiet_lift {A} (r : result A) : quiet (lift r).
Proof. intro log. exists []. split; [symmetry; apply app_nil_r | reflexivity]. Qed.

Lemma quiet_bind {A B} (c : M A) (k : A -> M B) :
  quiet c -> (forall a, quiet (k a)) -> quiet (bind c k).
Proof.
  intros Hc Hk log. unfold bind, calls.
  destruct (Hc log) as [more [Hmore Hq]]. unfold calls in Hmore.
  destruct (c log) as [[a|e] log1]; simpl in Hmore; subst log1.
  - destruct (Hk a (log ++ more)) as [more' [Hmore' Hq']].
    unfold calls in Hmore'. exists (more ++ more'). split.
    + rewrite Hmore'. symmetry. apply app_assoc.
    + rewrite discoveries_app, Hq, Hq'. reflexivity.
  - exists more. split; [reflexivity | exact Hq].
Qed.

Lemma asks_quiet {A} (year : Z) (pages : list Z) (c : M A) :
  quiet c -> asks year pages c.
Proof.
  intros Hc log. destruct (Hc log) as [more [Hmore Hq]].
  exists more, 0%nat. split; [exact Hmore | exact Hq].
Qed.

Lemma asks_bind_quiet {A B} (year : Z) (pages : list Z)
      (c : M A) (k : A -> M B) :
  quiet c -> (forall a, asks year pages (k a)) -> asks year pages (bind c k).
Proof.
  intros Hc Hk log. unfold bind, calls.
  destruct (Hc log) as [more [Hmore Hq]]. unfold calls in Hmore.
  destruct (c log) as [[a|e] log1]; simpl in Hmore; subst log1.
  - destruct (Hk a (log ++ more)) as [more' [n [Hmore' Hq']]].
    unfold calls in Hmore'. exists (more ++ more'), n. split.
    + rewrite Hmore'. symmetry. apply app_assoc.
    + rewrite discoveries_app, Hq, Hq'. reflexivity.
  - exists more, 0%nat. split; [reflexivity | exact Hq].
Qed.

End Quiet.

Section CollectorLoops.
Import Collector.
Variable net : network.
Variable self : config.

Lemma get_movie_details_one_call (movie_id : value) (log : list request) :
  exists details,
    get_movie_details net self movie_id log
    = (Ok details, log ++ [request_for self (MovieDetails movie_id)]).
Proof.
  unfold get_movie_details, bind, call, requests_get, ret.
  fold (request_for self (MovieDetails movie_id)).
  destruct (net _ _); eexists; reflexivity.
Qed.

Lemma discover_movies_one_call (year page : Z) (log : list request) :
  exists results,
    discover_movies net self year page log
    = (Ok results, log ++ [request_for self (Discover year page)]).
Proof.
  unfold discover_movies, bind, call, requests_get, ret.
  fold (request_for self (Discover year page)).
  destruct (net _ _); eexists; reflexivity.
Qed.

Lemma quiet_get_movie_details (movie_id : value) :
  quiet (get_movie_details net self movie_id).
Proof.
  intro log. destruct (get_movie_details_one_call movie_id log) as [v Hv].
  exists [request_for self (MovieDetails movie_id)].
  rewrite Hv. split; reflexivity.
Qed.

Lemma quiet_collect_movies (movies : list value) (movies_data : list dict) :
  quiet (collect_movies net self movies movies_data).
Proof.
  revert movies_data.
  induction movies as [|movie rest IH]; intro movies_data;
    cbn [collect_movies]; [apply quiet_ret|].
  apply quiet_bind; [apply quiet_lift | intro movie_id].
  apply quiet_bind; [apply quiet_get_movie_details | intro details].
  destruct (Py.truthy details); [|apply IH].
  apply quiet_bind; [apply quiet_lift | intro row; apply IH].
Qed.

Lemma asks_collect_pages (year : Z) (pages : list Z) (movies_data : list dict) :
  asks year pages (collect_pages net self year pages movies_data).
Proof.
  revert movies_data.
  induction pages as [|page rest IH]; intro movies_data.
  - apply asks_quiet. apply quiet_ret.
  - intro log. cbn [collect_pages]. unfold bind at 1.
    destruct (discover_movies_one_call year page log) as [results Hresults].
    rewrite Hresults.
    match goal with
    | |- exists more k, calls (?K _) = _ /\ _ =>
        assert (HK : asks year rest K)
    end.
    { destruct (negb (Py.truthy results));
        [apply asks_quiet; apply quiet_ret|].
      apply asks_bind_quiet; [apply quiet_lift | intro has].
      destruct (negb has); [apply asks_quiet; apply quiet_ret|].
      apply asks_bind_quiet; [apply quiet_lift | intro listed].
      apply asks_bind_quiet; [apply quiet_lift | intro movies].
      apply asks_bind_quiet; [apply quiet_collect_movies | intro movies_data'].
      apply asks_bind_quiet; [apply quiet_lift | intro total].
      apply asks_bind_quiet; [apply quiet_lift | intro last].
      destruct last; [apply asks_quiet; apply quiet_ret | apply IH]. }
    destruct (HK (log ++ [request_for self (Discover year page)]))
      as [more [k [Hmore Hk]]].
    exists (request_for self (Discover year page) :: more), (S k). split.
    + rewrite Hmore, <- app_assoc. reflexivity.
    + cbn [discoveries flat_map discovery request_for req_path app firstn map].
      f_equal. exact Hk.
Qed.

(** X4. Whatever the service answers, the pages of the discovery that
    [collect_year_data] asks for are pages 1, 2, ... of that year, each
    once and in this order, up to some page that is at most [max_pages]:
    no page is skipped, asked for twice, or asked for beyond the
    maximum (none at all when [max_pages] is not positive). *)
Theorem collect_year_data_pages (year max_pages : Z) (log : list request) :
  exists more k,
    calls (collect_year_data net self year max_pages log) = log ++ more
    /\ discoveries more
       = map (pair year) (firstn k (Py.range 1 (max_pages + 1)))
    /\ (Datatypes.length (discoveries more) <= Z.to_nat max_pages)%nat.
Proof.
  unfold collect_year_data.
  destruct (asks_collect_pages year (Py.range 1 (max_pages + 1)) [] log)
    as [more [k [Hmore Hk]]].
  exists more, k. split; [exact Hmore|]. split; [exact Hk|].
  rewrite Hk, length_map, length_firstn.
  etransitivity; [apply Nat.le_min_r|].
  unfold Py.range. rewrite length_map, length_seq.
  replace (max_pages + 1 - 1) with max_pages by lia. apply Nat.le_refl.
Qed.

(** X5. When the loop over the films of a page returns, it has issued
    exactly one call for the details of each film listed, in the order
    of the list; the records it had are kept, in front of the new ones;
    there is at most one new record per film, and each carries the
    identifier of a film of the list and the seventeen columns. *)
Theorem collect_movies_one_call_per_film
  (movies : list value) (movies_data out : list dict)
  (log log' : list request) :
  collect_movies net self movies movies_data log = (Ok out, log') ->
  exists ids new,
    mapM (fun movie => Py.getitem movie "id") movies = Ok ids
    /\ log' = log ++ map (fun id => request_for self (MovieDetails id)) ids
    /\ out = movies_data ++ new
    /\ (Datatypes.length new <= Datatypes.length movies)%nat
    /\ Forall (fun row =>
                 map fst row = movie_columns
                 /\ exists id, In id ids /\ Py.lookup "movie_id" row = Some id)
              new.
Proof.
  revert movies_data log.
  induction movies as [|movie rest IH]; intros movies_data log H.
  - cbn [collect_movies] in H. unfold ret in H. injection H as <- <-.
    exists [], []. cbn [mapM map Datatypes.length]. rewrite !app_nil_r.
    split; [reflexivity|]. split; [reflexivity|]. split; [reflexivity|].
    split; [apply Nat.le_refl | constructor].
  - cbn [collect_movies] in H.
    apply bind_ok in H. destruct H as (movie_id & log1 & Hid & H).
    apply lift_ok in Hid. destruct Hid as [Hid ->].
    apply bind_ok in H. destruct H as (details & log2 & Hdetails & H).
    destruct (get_movie_details_one_call movie_id log) as [details' Hcall].
    rewrite Hcall in Hdetails. injection Hdetails as -> <-.
    destruct (Py.truthy details).
    + apply bind_ok in H. destruct H as (row & log3 & Hrow & H).
      apply lift_ok in Hrow. destruct Hrow as [Hrow ->].
      apply IH in H.
      destruct H as (ids & new & Hids & -> & -> & Hlen & Hnew).
      exists (movie_id :: ids), (row :: new).
      cbn [mapM]. rewrite Hid. cbn [rbind]. rewrite Hids. cbn [rbind].
      split; [reflexivity|]. split; [rewrite <- app_assoc; reflexivity|].
      split; [rewrite <- app_assoc; reflexivity|].
      split; [simpl; lia|].
      apply movie_data_shape in Hrow.
      destruct Hrow as (d & gi & g & pg & t3 & pc & pn
                        & _ & _ & _ & _ & _ & _ & _ & ->).
      constructor.
      * split; [reflexivity|]. exists movie_id.
        split; [left; reflexivity | reflexivity].
      * eapply Forall_impl; [|exact Hnew].
        intros r [Hcols [id [Hin Hlookup]]]. split; [exact Hcols|].
        exists id. split; [right; exact Hin | exact Hlookup].
    + apply IH in H.
      destruct H as (ids & new & Hids & -> & -> & Hlen & Hnew).
      exists (movie_id :: ids), new.
      cbn [mapM]. rewrite Hid. cbn [rbind]. rewrite Hids. cbn [rbind].
      split; [reflexivity|]. split; [rewrite <- app_assoc; reflexivity|].
      split; [reflexivity|]. split; [simpl; lia|].
      eapply Forall_impl; [|exact Hnew].
      intros r [Hcols [id [Hin Hlookup]]]. split; [exact Hcols|].
      exists id. split; [right; exact Hin | exact Hlookup].
Qed.

(** X6. After a page whose answer gives a number of pages that is not
    above the page just read, or gives none (it is then read as 0), no
    further page of the year is asked for: the pages left do not
    matter. *)
Theorem collect_pages_stops_at_last_page
  (year page : Z) (rest : list Z) (movies_data : list dict)
  (log : list request) (d : dict) :
  net (Datatypes.length log) (request_for self (Discover year page))
  = Body (VDict d) ->
  Py.int_ge page (Py.dict_get d "total_pages" (Py.int 0)) = Ok true ->
  collect_pages net self year (page :: rest) movies_data log
  = collect_pages net self year [page] movies_data log.
Proof.
  intros Hnet Hlast.
  assert (Hd : discover_movies net self year page log
               = (Ok (VDict d),
                  log ++ [request_for self (Discover year page)])).
  { unfold discover_movies, bind, call, requests_get.
    fold (request_for self (Discover year page)). rewrite Hnet. reflexivity. }
  cbn [collect_pages]. unfold bind, lift, ret. rewrite Hd.
  destruct (negb (Py.truthy (VDict d))); [reflexivity|].
  cbn [Py.is_in Py.getitem Py.get].
  destruct (negb (Py.has_key "results" d)); [reflexivity|].
  destruct (Py.lookup "results" d) as [listed|]; [|reflexivity].
  destruct (Py.iter listed) as [movies|e]; [|reflexivity].
  destruct (collect_movies net self movies movies_data _) as [[out|e] log2];
    [|reflexivity].
  rewrite Hlast. reflexivity.
Qed.

End CollectorLoops.

Lemma collect_movies_one_call_per_film_witness :
  let net : network :=
    fun _ _ => Body (VDict [("title", VStr "Fight Club")]) in
  let self := {| TMDB_API_KEY := Some "k";
                 TMDB_BASE_URL := Some "https://api.themoviedb.org/3" |} in
  let movies := [VDict [("id", Py.int 550)]; VDict [("id", Py.int 551)]] in
  exists out log',
    Collector.collect_movies net self movies [] [] = (Ok out, log')
    /\ exists ids new,
        mapM (fun movie => Py.getitem movie "id") movies = Ok ids
        /\ log' = [] ++ map (fun id => request_for self (MovieDetails id)) ids
        /\ out = [] ++ new
        /\ (Datatypes.length new <= Datatypes.length movies)%nat
        /\ Forall (fun row =>
                     map fst row = movie_columns
                     /\ exists id,
                         In id ids /\ Py.lookup "movie_id" row = Some id)
                  new.
Proof.
  intros net self movies. eexists. eexists. split; [reflexivity|].
  exact (collect_movies_one_call_per_film net self movies [] _ [] _ eq_refl).
Defined.

Lemma collect_pages_stops_at_last_page_witness :
  let d := [("page", Py.int 1); ("results", VList [])] in
  let net : network := fun _ _ => Body (VDict d) in
  let self := {| TMDB_API_KEY := Some "k";
                 TMDB_BASE_URL := Some "https://api.themoviedb.org/3" |} in
  net 0%nat (request_for self (Discover 2019 1)) = Body (VDict d)
  /\ Py.int_ge 1 (Py.dict_get d "total_pages" (Py.int 0)) = Ok true
  /\ Collector.collect_pages net self 2019 [1; 2; 3; 4; 5] [] []
     = Collector.collect_pages net self 2019 [1] [] [].
Proof.
  intros d net self. split; [reflexivity|]. split; [reflexivity|].
  exact (collect_pages_stops_at_last_page net self 2019 1 [2; 3; 4; 5] [] [] d
           eq_refl eq_refl).
Defined.

(* ================================================================== *)
(** * Further properties: the genres *)
(* ================================================================== *)

(** X7. An answer to the call for the genres that is an object without
    the key "genres" is not caught by the handler of [get_genres], which
    only catches the exceptions of [requests]: the collector ends there,
    with [KeyError], after this one call and before any film is asked
    for. *)
Theorem main_stops_on_answer_without_genres
  (net : network) (env : config) (d : dict) :
  net 0%nat (request_for env GenreList) = Body (VDict d) ->
  Py.has_key "genres" d = false ->
  Collector.main net env []
  = (Raise (KeyError "genres"), [request_for env GenreList]).
Proof.
  intros Hnet Hkey.
  unfold Collector.main, Collector.collect_all, Collector.get_genres,
    Collector.call, requests_get, bind.
  fold (request_for env GenreList). cbn [Datatypes.length app].
  rewrite Hnet. unfold lift. cbn [Py.getitem rbind].
  unfold Py.has_key in Hkey.
  destruct (Py.lookup "genres" d); [discriminate Hkey | reflexivity].
Qed.

Lemma main_stops_on_answer_without_genres_witness :
  let d := [("status_code", Py.int 34);
            ("status_message", VStr "The resource could not be found.")] in
  let net : network := fun _ _ => Body (VDict d) in
  let env := {| TMDB_API_KEY := Some "k";
                TMDB_BASE_URL := Some "https://api.themoviedb.org/3" |} in
  net 0%nat (request_for env GenreList) = Body (VDict d)
  /\ Py.has_key "genres" d = false
  /\ Collector.main net env []
     = (Raise (KeyError "genres"), [request_for env GenreList]).
Proof.
  intros d net env. split; [reflexivity|]. split; [reflexivity|].
  exact (main_stops_on_answer_without_genres net env d eq_refl eq_refl).
Defined.

(** X8. A call for the genres that fails is caught: collection goes on
    with the years, as it does after any answer that could be read; the
    mapping of the genres is not used by what follows. *)
Theorem main_goes_on_after_failed_genres (net : network) (env : config) :
  net 0%nat (request_for env GenreList) = Failed ->
  Collector.main net env []
  = Collector.collect_years net env Collector.years []
      [request_for env GenreList].
Proof.
  intro Hnet.
  unfold Collector.main, Collector.collect_all, Collector.get_genres,
    Collector.call, requests_get.
  unfold bind at 1 2. fold (request_for env GenreList).
  cbn [Datatypes.length app]. rewrite Hnet. reflexivity.
Qed.

Lemma main_goes_on_after_failed_genres_witness :
  let net : network :=
    fun n _ => match n with
               | O => Failed
               | _ => Body (VDict [("results", VList [])])
               end in
  let env := {| TMDB_API_KEY := Some "k";
                TMDB_BASE_URL := Some "https://api.themoviedb.org/3" |} in
  net 0%nat (request_for env GenreList) = Failed
  /\ Collector.main net env []
     = Collector.collect_years net env Collector.years []
         [request_for env GenreList].
Proof.
  intros net env. split; [reflexivity|].
  exact (main_goes_on_after_failed_genres net env eq_refl).
Defined.

(* ================================================================== *)
(** * Further properties: the table of the collector *)
(* ================================================================== *)

Section TableAgain.
Import Collector.

Variable to_datetime_year : list value -> result (list value).
Hypothesis to_datetime_year_length :
  forall column ys,
    to_datetime_year column = Ok ys ->
    Datatypes.length ys = Datatypes.length column.

Lemma main_table_years (df : list movie) (out : list retained) :
  main_table to_datetime_year df = Ok out ->
  exists ys,
    to_datetime_year (release_dates (filter keep df)) = Ok ys
    /\ out = add_columns (filter keep df) ys.
Proof.
  unfold main_table. destruct df as [|r0 df]; [discriminate|].
  intro H. apply rbind_ok in H. destruct H as [ys [Hys H]].
  injection H as <-. exists ys. split; [exact Hys | reflexivity].
Qed.

Lemma filter_keep_twice (df : list movie) :
  filter keep (filter keep df) = filter keep df.
Proof.
  induction df as [|r df IH]; [reflexivity|].
  cbn [filter]. destruct (keep r) eqn:E; [|exact IH].
  cbn [filter]. rewrite E, IH. reflexivity.
Qed.

Lemma main_table_not_empty (df : list movie) :
  df <> [] ->
  main_table to_datetime_year df
  = rbind (to_datetime_year (release_dates (filter keep df)))
          (fun ys => Ok (add_columns (filter keep df) ys)).
Proof. destruct df; [intro H; contradiction H|]; reflexivity. Qed.

(** X9. Cleaning is idempotent: the rows of the table the collector
    writes, taken again as [df], all pass the filter, and the same table
    comes out (the table must have a row: without one there is no column
    to filter on). *)
Theorem main_table_idempotent (df : list movie) (out : list retained) :
  main_table to_datetime_year df = Ok out ->
  out <> [] ->
  main_table to_datetime_year (map row out) = Ok out.
Proof.
  intros H Hne.
  destruct (main_table_years _ _ H) as [ys [Hys Hout]].
  assert (Hrows : map row out = filter keep df).
  { rewrite Hout. apply add_columns_rows.
    apply to_datetime_year_length in Hys.
    unfold release_dates in Hys. rewrite length_map in Hys. exact Hys. }
  assert (Hrows' : map row out <> []).
  { destruct out; [contradiction Hne; reflexivity | discriminate]. }
  rewrite (main_table_not_empty _ Hrows'), Hrows, filter_keep_twice, Hys.
  cbn [rbind]. rewrite Hout. reflexivity.
Qed.

(** X10. For every row of the table the collector writes, the [profit]
    cell is the revenue minus the budget, without wrap-around; it is
    positive exactly when the revenue is above the budget, and the [roi]
    cell is computed from this very difference. *)
Theorem main_table_profit (df : list movie) (out : list retained) :
  Forall (fun r => int64 (budget r) /\ int64 (revenue r)) df ->
  main_table to_datetime_year df = Ok out ->
  forall r, In r out ->
    profit r = revenue (row r) - budget (row r)
    /\ (0 < profit r <-> budget (row r) < revenue (row r))
    /\ roi r =
       F64.mul (F64.div (F64.of_Z (profit r)) (F64.of_Z (budget (row r))))
               (F64.of_Z 100).
Proof.
  intros Hdf H r Hin.
  pose proof (main_table_inv _ to_datetime_year_length _ _ H)
    as [ys [Hlen Hout]].
  assert (Hrow : In (row r) (filter keep df)).
  { rewrite <- (add_columns_rows _ _ Hlen), <- Hout. apply in_map. exact Hin. }
  apply filter_In in Hrow. destruct Hrow as [Hrdf Hkeep].
  apply keep_positive in Hkeep. destruct Hkeep as [Hb Hr].
  rewrite Forall_forall in Hdf. destruct (Hdf _ Hrdf) as [Hb64 Hr64].
  rewrite Hout in Hin. apply add_columns_roi in Hin. destruct Hin as [Hroi Hprofit].
  assert (Hp : profit r = revenue (row r) - budget (row r)).
  { rewrite Hprofit. unfold profit_of.
    apply wrap64_difference; assumption. }
  split; [exact Hp|]. split; [rewrite Hp; lia|].
  rewrite Hroi, Hprofit. reflexivity.
Qed.

End TableAgain.

Lemma two_retained_not_empty : two_retained <> [].
Proof. discriminate. Qed.

Lemma main_table_idempotent_witness :
  Collector.main_table year_2019 three_movies = Ok two_retained
  /\ two_retained <> []
  /\ Collector.main_table year_2019 (map Collector.row two_retained)
     = Ok two_retained.
Proof.
  split; [exact main_table_three_movies|].
  split; [exact two_retained_not_empty|].
  exact (main_table_idempotent year_2019 year_2019_length
           three_movies two_retained main_table_three_movies
           two_retained_not_empty).
Defined.

Lemma main_table_profit_witness :
  Forall (fun r => Collector.int64 (Collector.budget r)
                   /\ Collector.int64 (Collector.revenue r))
         three_movies
  /\ Collector.main_table year_2019 three_movies = Ok two_retained
  /\ forall r, In r two_retained ->
       Collector.profit r
       = Collector.revenue (Collector.row r) - Collector.budget (Collector.row r)
       /\ (0 < Collector.profit r
           <-> Collector.budget (Collector.row r)
               < Collector.revenue (Collector.row r))
       /\ Collector.roi r =
          F64.mul
            (F64.div (F64.of_Z (Collector.profit r))
                     (F64.of_Z (Collector.budget (Collector.row r))))
            (F64.of_Z 100).
Proof.
  split; [exact three_movies_int64|].
  split; [exact main_table_three_movies|].
  exact (main_table_profit year_2019 year_2019_length three_movies two_retained
           three_movies_int64 main_table_three_movies).
Defined.

(* ================================================================== *)
(** * Further properties: parse_providers *)
(* ================================================================== *)

Section ParseProvidersAgain.
Import Enricher.

(** What a run of [parse_providers] that returns went through. *)
Lemma parse_providers_cases (providers_data : value) (p : parsed) :
  parse_providers providers_data = Ok p ->
  (available_on_streaming p = false /\ streaming_platforms p = []
   /\ total_platforms p = 0
   /\ on_netflix p = false /\ on_prime p = false /\ on_disney p = false
   /\ on_hulu p = false /\ on_hbo p = false)
  \/ (available_on_streaming p = true
      /\ total_platforms p = Py.len (streaming_platforms p)
      /\ Py.any is_netflix (streaming_platforms p) = Ok (on_netflix p)
      /\ Py.any is_prime (streaming_platforms p) = Ok (on_prime p)
      /\ Py.any is_disney (streaming_platforms p) = Ok (on_disney p)
      /\ Py.any is_hulu (streaming_platforms p) = Ok (on_hulu p)
      /\ Py.any is_hbo (streaming_platforms p) = Ok (on_hbo p)).
Proof.
  unfold parse_providers. intro H.
  apply rbind_ok in H. destruct H as [flat [Hflat H]].
  apply rbind_ok in H. destruct H as [sub [Hsub H]].
  apply rbind_ok in H. destruct H as [rent [Hrent H]].
  apply rbind_ok in H. destruct H as [buy [Hbuy H]].
  destruct flat.
  - right.
    apply rbind_ok in Hsub. destruct Hsub as [listed [_ Hsub]].
    apply rbind_ok in Hsub. destruct Hsub as [ps [_ Hsub]].
    apply rbind_ok in Hsub. destruct Hsub as [platforms [_ Hsub]].
    apply rbind_ok in Hsub. destruct Hsub as [netflix [Hnetflix Hsub]].
    apply rbind_ok in Hsub. destruct Hsub as [prime [Hprime Hsub]].
    apply rbind_ok in Hsub. destruct Hsub as [disney [Hdisney Hsub]].
    apply rbind_ok in Hsub. destruct Hsub as [hulu [Hhulu Hsub]].
    apply rbind_ok in Hsub. destruct Hsub as [hbo [Hhbo Hsub]].
    injection Hsub as <-. injection H as <-. simpl.
    repeat (split; [reflexivity || assumption|]). assumption.
  - left. injection Hsub as <-. injection H as <-. simpl.
    repeat (split; [reflexivity|]). reflexivity.
Qed.

Lemma any_true_not_empty (f : value -> result bool) (l : list value) :
  Py.any f l = Ok true -> l <> [].
Proof. destruct l; [discriminate | discriminate]. Qed.

(** X11. In every record [parse_providers] returns, a platform flag that
    is true comes with [available_on_streaming] true and at least one
    platform counted; and when [available_on_streaming] is false the list
    is empty, the count 0 and the five flags false. *)
Theorem parse_providers_flags_need_streaming
  (providers_data : value) (p : parsed) :
  parse_providers providers_data = Ok p ->
  (on_netflix p || on_prime p || on_disney p || on_hulu p || on_hbo p = true ->
   available_on_streaming p = true /\ 1 <= total_platforms p)
  /\ (available_on_streaming p = false ->
      streaming_platforms p = [] /\ total_platforms p = 0
      /\ on_netflix p || on_prime p || on_disney p || on_hulu p || on_hbo p
         = false).
Proof.
  intro H. apply parse_providers_cases in H.
  destruct H as [(Ha & Hl & Ht & Hn & Hp & Hd & Hh & Hb)
                |(Ha & Ht & Hn & Hp & Hd & Hh & Hb)].
  - rewrite Ha, Hl, Ht, Hn, Hp, Hd, Hh, Hb. split.
    + discriminate.
    + intros _. repeat split.
  - split; [|rewrite Ha; discriminate].
    intro Hflag. split; [exact Ha|].
    assert (Hne : streaming_platforms p <> []).
    { rewrite !orb_true_iff in Hflag.
      destruct Hflag as [[[[E|E]|E]|E]|E]; rewrite E in *;
        eapply any_true_not_empty; eassumption. }
    rewrite Ht. unfold Py.len.
    destruct (streaming_platforms p); [contradiction Hne; reflexivity|].
    simpl. lia.
Qed.

Lemma parse_providers_flags_need_streaming_witness :
  let payload :=
    VDict [("flatrate", VList [VDict [("provider_name", VStr "Hulu")]])] in
  exists p,
    parse_providers payload = Ok p
    /\ (on_netflix p || on_prime p || on_disney p || on_hulu p || on_hbo p
        = true ->
        available_on_streaming p = true /\ 1 <= total_platforms p)
    /\ (available_on_streaming p = false ->
        streaming_platforms p = [] /\ total_platforms p = 0
        /\ on_netflix p || on_prime p || on_disney p || on_hulu p || on_hbo p
           = false).
Proof.
  intro payload. eexists. split; [reflexivity|].
  exact (parse_providers_flags_need_streaming payload _ eq_refl).
Defined.

Lemma mapM_raise {A B} (f : A -> result B) (good : list A) (ys : list B)
      (bad : A) (rest : list A) (e : exn) :
  Forall2 (fun x y => f x = Ok y) good ys ->
  f bad = Raise e ->
  mapM f (good ++ bad :: rest) = Raise e.
Proof.
  intros Hgood Hbad. induction Hgood as [|x y good ys Hxy _ IH]; simpl.
  - rewrite Hbad. reflexivity.
  - rewrite Hxy. simpl. rewrite IH. reflexivity.
Qed.

(** X12. A subscription list with an entry that has no "provider_name",
    after entries that have one, makes [parse_providers] raise
    [KeyError]: no record is returned, whatever the "rent" and "buy"
    keys. *)
Theorem parse_providers_entry_without_name
  (d : dict) (good : list dict) (bad : dict) (rest : list value) :
  Py.lookup "flatrate" d
  = Some (VList (map VDict good ++ VDict bad :: rest)) ->
  Forall (fun e => Py.has_key "provider_name" e = true) good ->
  Py.has_key "provider_name" bad = false ->
  parse_providers (VDict d) = Raise (KeyError "provider_name").
Proof.
  intros Hflat Hgood Hbad. unfold parse_providers.
  cbn [Py.is_in Py.getitem rbind]. unfold Py.has_key at 1.
  rewrite Hflat. cbn [rbind Py.iter].
  assert (Hys : exists ys,
             Forall2 (fun x y => Py.getitem x "provider_name" = Ok y)
                     (map VDict good) ys).
  { clear - Hgood. induction Hgood as [|e good He _ IH].
    - exists []. constructor.
    - destruct IH as [ys IH].
      apply has_key_lookup in He. destruct He as [v Hv].
      exists (v :: ys). constructor; [|exact IH].
      cbn [Py.getitem]. rewrite Hv. reflexivity. }
  destruct Hys as [ys Hys].
  rewrite (mapM_raise _ _ _ _ _ (KeyError "provider_name") Hys).
  - reflexivity.
  - cbn [Py.getitem]. unfold Py.has_key in Hbad.
    destruct (Py.lookup "provider_name" bad); [discriminate Hbad | reflexivity].
Qed.

Lemma parse_providers_entry_without_name_witness :
  let good := [[("provider_id", Py.int 8); ("provider_name", VStr "Netflix")]] in
  let bad := [("provider_id", Py.int 337)] in
  let d := [("buy", VList []);
            ("flatrate", VList (map VDict good ++ VDict bad :: []))] in
  Py.lookup "flatrate" d = Some (VList (map VDict good ++ VDict bad :: []))
  /\ Forall (fun e => Py.has_key "provider_name" e = true) good
  /\ Py.has_key "provider_name" bad = false
  /\ parse_providers (VDict d) = Raise (KeyError "provider_name").
Proof.
  intros good bad d.
  assert (Hgood : Forall (fun e => Py.has_key "provider_name" e = true) good)
    by (repeat constructor).
  split; [reflexivity|]. split; [exact Hgood|]. split; [reflexivity|].
  exact (parse_providers_entry_without_name d good bad [] eq_refl Hgood eq_refl).
Defined.

Lemma existsb_Permutation {X} (g : X -> bool) (l l' : list X) :
  Permutation l l' -> existsb g l = existsb g l'.
Proof.
  induction 1 as [|x l l' _ IH|x y l|l l' l'' _ IH _ IH']; simpl.
  - reflexivity.
  - rewrite IH. reflexivity.
  - destruct (g x), (g y); reflexivity.
  - rewrite IH. exact IH'.
Qed.

(** X13. The five platform flags and the count do not depend on the
    order of the subscription list: two payloads whose lists hold the
    same names, in any order, get the same flags and the same count. *)
Theorem parse_providers_order (d d' : dict) (names names' : list string) :
  subscription d names ->
  subscription d' names' ->
  Permutation names names' ->
  exists p p',
    parse_providers (VDict d) = Ok p
    /\ parse_providers (VDict d') = Ok p'
    /\ on_netflix p = on_netflix p'
    /\ on_prime p = on_prime p'
    /\ on_disney p = on_disney p'
    /\ on_hulu p = on_hulu p'
    /\ on_hbo p = on_hbo p'
    /\ total_platforms p = total_platforms p'.
Proof.
  intros Hd Hd' Hperm. eexists. eexists.
  split; [apply parse_providers_subscription; exact Hd|].
  split; [apply parse_providers_subscription; exact Hd'|].
  cbn [on_netflix on_prime on_disney on_hulu on_hbo total_platforms].
  repeat (split; [apply existsb_Permutation; exact Hperm|]).
  unfold Py.len. rewrite (Permutation_length Hperm). reflexivity.
Qed.

Lemma parse_providers_order_witness :
  let entry n := VDict [("provider_name", VStr n)] in
  let d := [("flatrate", VList [entry "Netflix"; entry "Max"])] in
  let d' := [("flatrate", VList [entry "Max"; entry "Netflix"])] in
  subscription d ["Netflix"; "Max"]
  /\ subscription d' ["Max"; "Netflix"]
  /\ Permutation ["Netflix"; "Max"] ["Max"; "Netflix"]
  /\ exists p p',
      parse_providers (VDict d) = Ok p
      /\ parse_providers (VDict d') = Ok p'
      /\ on_netflix p = on_netflix p'
      /\ on_prime p = on_prime p'
      /\ on_disney p = on_disney p'
      /\ on_hulu p = on_hulu p'
      /\ on_hbo p = on_hbo p'
      /\ total_platforms p = total_platforms p'.
Proof.
  intros entry d d'.
  assert (H : subscription d ["Netflix"; "Max"]).
  { unfold subscription. simpl. eexists. split; [reflexivity|].
    repeat constructor. }
  assert (H' : subscription d' ["Max"; "Netflix"]).
  { unfold subscription. simpl. eexists. split; [reflexivity|].
    repeat constructor. }
  assert (Hperm : Permutation ["Netflix"; "Max"] ["Max"; "Netflix"])
    by apply perm_swap.
  split; [exact H|]. split; [exact H'|]. split; [exact Hperm|].
  exact (parse_providers_order d d' _ _ H H' Hperm).
Defined.

End ParseProvidersAgain.

(* ================================================================== *)
(** * Further properties: categorize_release_strategy *)
(* ================================================================== *)

Section CategorizeAgain.
Import Enricher.



(** X15. The budget is looked at only when the revenue is under
    10,000,000: a row whose revenue is a number that is not, gets its
    label from the streaming cell alone, whatever its budget cell holds
    (nothing, a text), and whatever kind of value the streaming cell
    is. *)
Theorem categorize_release_strategy_ignores_budget
  (row : dict) (revenue : num) :
  Py.lookup "revenue" row = Some (VNum revenue) ->
  Py.num_lt revenue 10000000 = false ->
  categorize_release_strategy row
  = Ok (if Py.truthy (Py.dict_get row "available_on_streaming" (VBool false))
        then TheatricalToStreaming else TheatricalOnly).
Proof.
  intros Hrev Hlow. unfold categorize_release_strategy.
  assert (Hget : Py.dict_get row "revenue" (Py.int 0) = VNum revenue)
    by (unfold Py.dict_get; rewrite Hrev; reflexivity).
  cbv zeta. rewrite !Hget.
  unfold Py.gt at 1, Py.lt. cbn [Py.as_num rbind].
  destruct (Py.num_gt revenue 50000000).
  - destruct (Py.truthy _); reflexivity.
  - rewrite Hlow. cbn [rbind]. destruct (Py.truthy _); reflexivity.
Qed.

Lemma categorize_release_strategy_ignores_budget_witness :
  let row := [("revenue", Py.int 12000000);
              ("budget", VStr "unknown");
              ("available_on_streaming", VBool true)] in
  Py.lookup "revenue" row = Some (VNum (NInt 12000000))
  /\ Py.num_lt (NInt 12000000) 10000000 = false
  /\ categorize_release_strategy row = Ok TheatricalToStreaming.
Proof.
  intro row. split; [reflexivity|]. split; [reflexivity|].
  exact (categorize_release_strategy_ignores_budget row (NInt 12000000)
           eq_refl eq_refl).
Defined.

(** X16. A cell that is not a number stops the categorization with
    [TypeError]: the revenue cell always, the budget cell when the
    revenue is under 10,000,000 (it is not looked at otherwise).  A
    missing figure read as [None], or as a text, is such a cell; a
    missing column is not, it is read as 0. *)
Theorem categorize_release_strategy_type_error
  (row : dict) (revenue budget : value) :
  Py.lookup "revenue" row = Some revenue ->
  Py.lookup "budget" row = Some budget ->
  Py.as_num revenue = Raise TypeError
  \/ (exists n, Py.as_num revenue = Ok n
                /\ Py.num_lt n 10000000 = true
                /\ Py.as_num budget = Raise TypeError) ->
  categorize_release_strategy row = Raise TypeError.
Proof.
  intros Hrev Hbud H. unfold categorize_release_strategy, Py.dict_get.
  rewrite Hrev, Hbud. unfold Py.gt, Py.lt.
  destruct H as [H | [n [Hn [Hlow H]]]].
  - rewrite H. reflexivity.
  - rewrite Hn, H. cbn [rbind].
    destruct n as [z|f].
    + rewrite (low_is_not_high (NInt z) Hlow), Hlow. reflexivity.
    + rewrite (low_is_not_high (NFloat f) Hlow), Hlow. reflexivity.
Qed.

Lemma categorize_release_strategy_type_error_witness :
  let row := [("revenue", Py.int 5000000); ("budget", VNone)] in
  Py.lookup "revenue" row = Some (Py.int 5000000)
  /\ Py.lookup "budget" row = Some VNone
  /\ categorize_release_strategy row = Raise TypeError.
Proof.
  intro row. split; [reflexivity|]. split; [reflexivity|].
  apply (categorize_release_strategy_type_error row (Py.int 5000000) VNone
           eq_refl eq_refl).
  right. exists (NInt 5000000).
  split; [reflexivity|]. split; reflexivity.
Defined.

End CategorizeAgain.

(* ================================================================== *)
(** * Further properties: the loop of the enricher *)
(* ================================================================== *)

Section Columns.
Import Enricher.

Lemma lookup_fold_set (kvs : dict) (row : dict) (k : string) :
  ~ In k (map fst kvs) ->
  Py.lookup k (fold_left (fun r kv => Py.set (fst kv) (snd kv) r) kvs row)
  = Py.lookup k row.
Proof.
  revert row. induction kvs as [|[k' v] kvs IH]; intros row Hk.
  - reflexivity.
  - cbn [fold_left fst snd]. rewrite IH.
    + apply lookup_set_other. intro E. apply Hk. left. symmetry. exact E.
    + intro Hin. apply Hk. right. exact Hin.
Qed.

Lemma lookup_fold_set_none (cols : list string) (row : dict) (k : string) :
  ~ In k cols ->
  Py.lookup k (fold_left (fun r col => Py.set col VNone r) cols row)
  = Py.lookup k row.
Proof.
  revert row. induction cols as [|col cols IH]; intros row Hk.
  - reflexivity.
  - cbn [fold_left]. rewrite IH.
    + apply lookup_set_other. intro E. apply Hk. left. symmetry. exact E.
    + intro Hin. apply Hk. right. exact Hin.
Qed.

(** The cells of a row outside the streaming columns are not touched by
    the three steps of the enrichment. *)
Lemma lookup_enriched (row : dict) (p : parsed) (v : value) (k : string) :
  ~ In k streaming_cols ->
  Py.lookup k (Py.set "release_strategy" v (update (init_cols row) p))
  = Py.lookup k row.
Proof.
  intro Hk.
  rewrite lookup_set_other.
  2:{ intro E. apply Hk. subst k. unfold streaming_cols. simpl. tauto. }
  unfold update. rewrite lookup_fold_set.
  2:{ intro Hin. apply Hk. unfold streaming_cols.
      cbn [items map fst] in Hin. simpl in Hin. simpl. tauto. }
  unfold init_cols. apply lookup_fold_set_none.
  intro Hin. apply Hk. unfold streaming_cols in *.
  cbn [removelast] in Hin. simpl in Hin. simpl. tauto.
Qed.

Lemma mapM_inv {A B} (f : A -> result B) (l : list A) (ys : list B) :
  mapM f l = Ok ys -> Forall2 (fun x y => f x = Ok y) l ys.
Proof.
  revert ys. induction l as [|x l IH]; simpl; intros ys H.
  - injection H as <-. constructor.
  - apply rbind_ok in H. destruct H as [y [Hy H]].
    apply rbind_ok in H. destruct H as [ys' [Hys H]].
    injection H as <-. constructor; [exact Hy | apply IH; exact Hys].
Qed.

(** Whatever the revenue and the budget, the label that comes out follows
    the streaming cell. *)
Lemma categorize_follows_flag (row : dict) (s : release_strategy) (b : bool) :
  categorize_release_strategy row = Ok s ->
  Py.lookup "available_on_streaming" row = Some (VBool b) ->
  streaming_label s = b.
Proof.
  unfold categorize_release_strategy. cbv zeta. intros H Hon.
  assert (Hget : Py.dict_get row "available_on_streaming" (VBool false)
                 = VBool b)
    by (unfold Py.dict_get; rewrite Hon; reflexivity).
  rewrite !Hget in H. cbn [Py.truthy] in H.
  apply rbind_ok in H. destruct H as [high [_ H]].
  destruct high; [destruct b; injection H as <-; reflexivity|].
  apply rbind_ok in H. destruct H as [low [_ H]].
  apply rbind_ok in H. destruct H as [funded [_ H]].
  destruct funded; destruct b; injection H as <-; reflexivity.
Qed.

Lemma Forall2_map_left {X Y Z} (f : X -> Y) (R : Y -> Z -> Prop)
      (l : list X) (l' : list Z) :
  Forall2 R (map f l) l' -> Forall2 (fun x z => R (f x) z) l l'.
Proof.
  revert l'. induction l as [|x l IH]; intros l' H; inversion H; subst.
  - constructor.
  - constructor; [assumption | apply IH; assumption].
Qed.

Lemma Forall2_compose {X Y Z} (R : X -> Y -> Prop) (S : Y -> Z -> Prop)
      (l1 : list X) (l2 : list Y) (l3 : list Z) :
  Forall2 R l1 l2 -> Forall2 S l2 l3 ->
  Forall2 (fun x z => exists y, R x y /\ S y z) l1 l3.
Proof.
  intro H. revert l3. induction H as [|x y l1 l2 Hxy _ IH]; intros l3 H';
    inversion H'; subst.
  - constructor.
  - constructor; [exists y; split; assumption | apply IH; assumption].
Qed.

Lemma Forall2_right {X Y} (R : X -> Y -> Prop) (P : Y -> Prop)
      (l : list X) (l' : list Y) :
  Forall2 R l l' -> (forall x y, R x y -> P y) -> Forall P l'.
Proof.
  intros H HP. induction H as [|x y l l' Hxy _ IH]; constructor.
  - exact (HP x y Hxy).
  - exact IH.
Qed.

End Columns.

Section EnricherLoops.
Import Enricher.
Variable net : network.
Variable self : config.

Lemma get_watch_providers_calls (movie_id : value) (log log1 : list request)
      (r : result value) :
  get_watch_providers net self movie_id log = (r, log1) ->
  log1 = log ++ [request_for self (WatchProviders movie_id)].
Proof.
  unfold get_watch_providers, bind, call, requests_get, lift, ret.
  fold (request_for self (WatchProviders movie_id)).
  destruct (net _ _); intro H; injection H as _ <-; reflexivity.
Qed.

(** How each row of a run of the loop that returned was made. *)
Definition enriched_from (row row' : dict) : Prop :=
  exists movie_id log0 log1 providers p,
    Py.lookup "movie_id" row = Some movie_id
    /\ get_watch_providers net self movie_id log0 = (Ok providers, log1)
    /\ parse_providers providers = Ok p
    /\ row' = update row p.

Lemma enrich_rows_inv (rows out : list dict) (log log' : list request) :
  enrich_rows net self rows log = (Ok out, log') ->
  exists ids,
    mapM (fun row => Py.getitem (VDict row) "movie_id") rows = Ok ids
    /\ log' = log ++ map (fun id => request_for self (WatchProviders id)) ids
    /\ Forall2 enriched_from rows out.
Proof.
  revert out log.
  induction rows as [|row rest IH]; intros out log H.
  - cbn [enrich_rows] in H. unfold ret in H. injection H as <- <-.
    exists []. cbn [mapM map]. rewrite app_nil_r.
    split; [reflexivity|]. split; [reflexivity | constructor].
  - cbn [enrich_rows] in H.
    apply bind_ok in H. destruct H as (movie_id & log1 & Hid & H).
    apply lift_ok in Hid. destruct Hid as [Hid ->].
    apply bind_ok in H. destruct H as (providers & log2 & Hcall & H).
    pose proof (get_watch_providers_calls _ _ _ _ Hcall) as Hlog2.
    apply bind_ok in H. destruct H as (p & log3 & Hp & H).
    apply lift_ok in Hp. destruct Hp as [Hp ->].
    apply bind_ok in H. destruct H as (rest' & log4 & Hrest & H).
    unfold ret in H. injection H as <- <-.
    apply IH in Hrest. destruct Hrest as (ids & Hids & -> & Hrows).
    exists (movie_id :: ids). cbn [mapM map].
    rewrite Hid. cbn [rbind]. rewrite Hids. cbn [rbind].
    split; [reflexivity|]. split.
    + rewrite Hlog2, <- app_assoc. reflexivity.
    + constructor; [|exact Hrows].
      exists movie_id, log, log2, providers, p.
      cbn [Py.getitem] in Hid.
      destruct (Py.lookup "movie_id" row) as [v|]; [|discriminate Hid].
      injection Hid as ->. auto.
Qed.

Lemma enrich_dataset_inv (df out : list dict) (log log' : list request) :
  enrich_dataset net self df log = (Ok out, log') ->
  exists ids rows,
    mapM (fun row => Py.getitem (VDict row) "movie_id") df = Ok ids
    /\ log' = log ++ map (fun id => request_for self (WatchProviders id)) ids
    /\ Forall2 enriched_from (map init_cols df) rows
    /\ Forall2 (fun row row' =>
                  exists s,
                    categorize_release_strategy row = Ok s
                    /\ row' = Py.set "release_strategy" (VStr (label s)) row)
               rows out.
Proof.
  unfold enrich_dataset. intro H.
  apply bind_ok in H. destruct H as (rows & log1 & Hrows & H).
  apply lift_ok in H. destruct H as [Hout ->].
  apply enrich_rows_inv in Hrows. destruct Hrows as (ids & Hids & -> & Hrows).
  exists ids, rows. split.
  - clear - Hids. revert ids Hids.
    induction df as [|row df IH]; intros ids Hids; [exact Hids|].
    cbn [map mapM Py.getitem] in *. rewrite lookup_init_cols in Hids.
    destruct (Py.lookup "movie_id" row) as [v|]; [|exact Hids].
    cbn [rbind] in *.
    apply rbind_ok in Hids. destruct Hids as [ids' [Hids' Hids]].
    rewrite (IH _ Hids'). exact Hids.
  - split; [reflexivity|]. split; [exact Hrows|].
    unfold add_release_strategy in Hout. apply mapM_inv in Hout.
    eapply Forall2_impl; [|exact Hout].
    intros row row' Hrow.
    apply rbind_ok in Hrow. destruct Hrow as [s [Hs Hrow]].
    injection Hrow as <-. exists s. split; [exact Hs | reflexivity].
Qed.

End EnricherLoops.

Section EnricherRuns.
Import Enricher.
Variable net : network.
Variable self : config.

(** From a row of the table read to the row written for it. *)
Lemma enrich_dataset_rows (df out : list dict) (log log' : list request) :
  enrich_dataset net self df log = (Ok out, log') ->
  Forall2 (fun row row' =>
             exists r s,
               enriched_from net self (init_cols row) r
               /\ categorize_release_strategy r = Ok s
               /\ row' = Py.set "release_strategy" (VStr (label s)) r)
          df out.
Proof.
  intro H. apply enrich_dataset_inv in H.
  destruct H as (ids & rows & _ & _ & Hrows & Hout).
  apply Forall2_map_left in Hrows.
  pose proof (Forall2_compose _ _ _ _ _ Hrows Hout) as H.
  eapply Forall2_impl; [|exact H].
  intros row row' [r [Hr [s [Hs ->]]]]. exists r, s. auto.
Qed.

(** X17. When the enrichment of a table returns, it has issued exactly
    one call per row, for the film of that row and in the order of the
    rows; the table written has the rows of the table read, in the same
    order, and every cell outside the eleven streaming columns is
    unchanged. *)
Theorem enrich_dataset_keeps_rows
  (df out : list dict) (log log' : list request) :
  enrich_dataset net self df log = (Ok out, log') ->
  exists ids,
    mapM (fun row => Py.getitem (VDict row) "movie_id") df = Ok ids
    /\ log' = log ++ map (fun id => request_for self (WatchProviders id)) ids
    /\ Forall2 (fun row row' =>
                  forall k, ~ In k streaming_cols ->
                            Py.lookup k row' = Py.lookup k row)
               df out.
Proof.
  intro H. pose proof (enrich_dataset_rows _ _ _ _ H) as Hrows.
  apply enrich_dataset_inv in H.
  destruct H as (ids & rows & Hids & Hlog & _ & _).
  exists ids. split; [exact Hids|]. split; [exact Hlog|].
  eapply Forall2_impl; [|exact Hrows].
  intros row row' (r & s & (id & l0 & l1 & pr & p & _ & _ & _ & ->) & _ & ->)
         k Hk.
  apply lookup_enriched. exact Hk.
Qed.

(** X18. In every row of the table written, the [release_strategy] cell
    is the text of the label that [categorize_release_strategy] gives on
    that very row, the streaming cell is a boolean, and the label is one
    of the two streaming labels exactly when that boolean is true. *)
Theorem enrich_dataset_strategy
  (df out : list dict) (log log' : list request) :
  enrich_dataset net self df log = (Ok out, log') ->
  Forall (fun row' =>
            exists s b,
              Py.lookup "release_strategy" row' = Some (VStr (label s))
              /\ categorize_release_strategy row' = Ok s
              /\ Py.lookup "available_on_streaming" row' = Some (VBool b)
              /\ streaming_label s = b)
         out.
Proof.
  intro H. apply enrich_dataset_rows in H.
  eapply Forall2_right; [exact H|]. cbv beta.
  intros row row' (r & s & (id & l0 & l1 & pr & p & _ & _ & _ & Hr) & Hs & ->).
  assert (Hflag : Py.lookup "available_on_streaming" r
                  = Some (VBool (available_on_streaming p)))
    by (rewrite Hr; apply update_available_on_streaming).
  exists s, (available_on_streaming p).
  split; [apply lookup_set_same|]. split.
  - rewrite <- Hs. apply categorize_reads_three_cells;
      apply lookup_set_other; discriminate.
  - split.
    + rewrite lookup_set_other by discriminate. exact Hflag.
    + exact (categorize_follows_flag _ _ _ Hs Hflag).
Qed.

(** X19. With the service out of reach for the whole run, a table that
    is written says of every film that it is not on streaming: the
    streaming cell is false, the count of platforms 0, and the label one
    of "Theatrical Only" and "Limited Theatrical". *)
Theorem enrich_dataset_network_down
  (df out : list dict) (log log' : list request) :
  (forall n r, net n r = Failed) ->
  enrich_dataset net self df log = (Ok out, log') ->
  Forall (fun row' =>
            Py.lookup "available_on_streaming" row' = Some (VBool false)
            /\ Py.lookup "total_platforms" row' = Some (Py.int 0)
            /\ (Py.lookup "release_strategy" row'
                = Some (VStr "Theatrical Only")
                \/ Py.lookup "release_strategy" row'
                   = Some (VStr "Limited Theatrical")))
         out.
Proof.
  intros Hdown H. apply enrich_dataset_rows in H.
  eapply Forall2_right; [exact H|]. cbv beta.
  intros row row'
         (r & s & (id & l0 & l1 & pr & p & _ & Hcall & Hp & Hr) & Hs & ->).
  rewrite (get_watch_providers_failed net self id l0 (Hdown _ _)) in Hcall.
  injection Hcall as <- _.
  assert (E : p = no_providers).
  { change (parse_providers (VDict [])) with (Ok no_providers) in Hp.
    injection Hp as <-. reflexivity. }
  subst p.
  assert (Hflag : Py.lookup "available_on_streaming" r = Some (VBool false))
    by (rewrite Hr; apply update_available_on_streaming).
  split; [rewrite lookup_set_other by discriminate; exact Hflag|].
  split.
  - rewrite lookup_set_other by discriminate. rewrite Hr.
    unfold update, items. cbn [fold_left fst snd]. apply lookup_set_same.
  - rewrite lookup_set_same.
    pose proof (categorize_follows_flag _ _ _ Hs Hflag) as Hlabel.
    destruct s; try discriminate Hlabel; [left | right]; reflexivity.
Qed.

(** X20. An answer that lists no provider for the region, because it has
    no "results" or because its "results" have no "US", gives the empty
    payload, as a failed call does: the row gets the record of no
    provider, and the loop goes on with the next row. *)
Theorem get_watch_providers_without_region
  (movie_id : value) (log : list request) (d : dict) :
  net (Datatypes.length log) (request_for self (WatchProviders movie_id))
  = Body (VDict d) ->
  Py.lookup "results" d = None
  \/ (exists regions,
        Py.lookup "results" d = Some (VDict regions)
        /\ Py.lookup "US" regions = None) ->
  get_watch_providers net self movie_id log
  = (Ok (VDict []), log ++ [request_for self (WatchProviders movie_id)])
  /\ forall row rest,
      Py.lookup "movie_id" row = Some movie_id ->
      enrich_rows net self (row :: rest) log
      = and_then (cons (update row no_providers))
          (enrich_rows net self rest
             (log ++ [request_for self (WatchProviders movie_id)])).
Proof.
  intros Hnet Hregion.
  assert (Hcall : get_watch_providers net self movie_id log
                  = (Ok (VDict []),
                     log ++ [request_for self (WatchProviders movie_id)])).
  { unfold get_watch_providers, bind, call, requests_get, lift.
    fold (request_for self (WatchProviders movie_id)). rewrite Hnet.
    cbn [Py.get]. unfold Py.dict_get.
    destruct Hregion as [E | [regions [E E']]]; rewrite E; cbn [rbind Py.get];
      [reflexivity|].
    unfold Py.dict_get. rewrite E'. reflexivity. }
  split; [exact Hcall|].
  intros row rest Hid. cbn [enrich_rows]. unfold bind at 1, lift at 1.
  cbn [Py.getitem]. rewrite Hid. unfold bind at 1. rewrite Hcall.
  unfold bind at 1, lift at 1.
  change (parse_providers (VDict [])) with (Ok no_providers).
  unfold bind, and_then, ret.
  destruct (enrich_rows net self rest _) as [[rows|e] log1]; reflexivity.
Qed.

End EnricherRuns.

Lemma enrich_dataset_keeps_rows_witness :
  exists out log',
    Enricher.enrich_dataset netflix_everywhere example_env two_rows []
    = (Ok out, log')
    /\ exists ids,
        mapM (fun row => Py.getitem (VDict row) "movie_id") two_rows = Ok ids
        /\ log' = [] ++ map (fun id => request_for example_env
                                         (WatchProviders id)) ids
        /\ Forall2 (fun row row' =>
                      forall k, ~ In k Enricher.streaming_cols ->
                                Py.lookup k row' = Py.lookup k row)
                   two_rows out.
Proof.
  eexists. eexists. split; [vm_compute; reflexivity|].
  exact (enrich_dataset_keeps_rows netflix_everywhere example_env
           two_rows _ [] _ eq_refl).
Defined.

Lemma enrich_dataset_strategy_witness :
  exists out log',
    Enricher.enrich_dataset netflix_everywhere example_env two_rows []
    = (Ok out, log')
    /\ Forall (fun row' =>
                 exists s b,
                   Py.lookup "release_strategy" row'
                   = Some (VStr (Enricher.label s))
                   /\ Enricher.categorize_release_strategy row' = Ok s
                   /\ Py.lookup "available_on_streaming" row'
                      = Some (VBool b)
                   /\ streaming_label s = b)
              out.
Proof.
  eexists. eexists. split; [vm_compute; reflexivity|].
  exact (enrich_dataset_strategy netflix_everywhere example_env
           two_rows _ [] _ eq_refl).
Defined.

Lemma enrich_dataset_network_down_witness :
  (forall n r, network_down n r = Failed)
  /\ exists out log',
      Enricher.enrich_dataset network_down example_env two_rows []
      = (Ok out, log')
      /\ Forall (fun row' =>
                   Py.lookup "available_on_streaming" row' = Some (VBool false)
                   /\ Py.lookup "total_platforms" row' = Some (Py.int 0)
                   /\ (Py.lookup "release_strategy" row'
                       = Some (VStr "Theatrical Only")
                       \/ Py.lookup "release_strategy" row'
                          = Some (VStr "Limited Theatrical")))
                out.
Proof.
  assert (Hdown : forall n r, network_down n r = Failed) by reflexivity.
  split; [exact Hdown|].
  eexists. eexists. split; [vm_compute; reflexivity|].
  exact (enrich_dataset_network_down network_down example_env
           two_rows _ [] _ Hdown eq_refl).
Defined.

Lemma get_watch_providers_without_region_witness :
  let d := [("id", Py.int 550);
            ("results", VDict [("GB", VDict [("rent", VList [])])])] in
  let net : network := fun _ _ => Body (VDict d) in
  net 0%nat (request_for example_env (WatchProviders (Py.int 550)))
  = Body (VDict d)
  /\ (exists regions,
        Py.lookup "results" d = Some (VDict regions)
        /\ Py.lookup "US" regions = None)
  /\ Enricher.get_watch_providers net example_env (Py.int 550) []
     = (Ok (VDict []), [request_for example_env (WatchProviders (Py.int 550))]).
Proof.
  intros d net.
  assert (Hregion : exists regions,
             Py.lookup "results" d = Some (VDict regions)
             /\ Py.lookup "US" regions = None).
  { eexists. split; reflexivity. }
  split; [reflexivity|]. split; [exact Hregion|].
  exact (proj1 (get_watch_providers_without_region net example_env
                  (Py.int 550) [] d eq_refl (or_intror Hregion))).
Defined.


(* ================================================================== *)
(** * Further properties: the roi cell *)
(* ================================================================== *)

(** The roi of a row is computed in binary64: a conversion of the two
    integers, a quotient and a product, each rounded to nearest-even.
    The lemmas follow the rounding of a positive mantissa through its
    two shifts. *)

Section Binary64.

(** The number of binary digits of a mantissa. *)
Lemma digits2_pos_bounds (m : positive) :
  2 ^ (Z.pos (digits2_pos m) - 1) <= Z.pos m < 2 ^ Z.pos (digits2_pos m).
Proof.
  induction m as [m IH|m IH|]; cbn [digits2_pos].
  - rewrite Pos2Z.inj_succ.
    replace (Z.succ (Z.pos (digits2_pos m)) - 1) with (Z.succ (Z.pos (digits2_pos m) - 1)) by lia.
    rewrite !Z.pow_succ_r by lia. lia.
  - rewrite Pos2Z.inj_succ.
    replace (Z.succ (Z.pos (digits2_pos m)) - 1) with (Z.succ (Z.pos (digits2_pos m) - 1)) by lia.
    rewrite !Z.pow_succ_r by lia. lia.
  - split; reflexivity.
Qed.

Lemma digits2_pos_le (m : positive) (k : Z) :
  Z.pos m < 2 ^ k -> Z.pos (digits2_pos m) <= k.
Proof.
  intro H. destruct (Z.le_gt_cases (Z.pos (digits2_pos m)) k) as [|Hk]; [assumption|].
  pose proof (digits2_pos_bounds m) as [Hlo _].
  assert (2 ^ k <= 2 ^ (Z.pos (digits2_pos m) - 1)).
  { destruct (Z.le_gt_cases 0 k).
    - apply Z.pow_le_mono_r; lia.
    - rewrite (Z.pow_neg_r 2 k) by lia. apply Z.pow_nonneg. lia. }
  lia.
Qed.

Lemma digits2_pos_ge (m : positive) (k : Z) :
  2 ^ (k - 1) <= Z.pos m -> k <= Z.pos (digits2_pos m).
Proof.
  intro H. destruct (Z.le_gt_cases k (Z.pos (digits2_pos m))) as [|Hk]; [assumption|].
  pose proof (digits2_pos_bounds m) as [_ Hhi].
  assert (2 ^ Z.pos (digits2_pos m) <= 2 ^ (k - 1)) by (apply Z.pow_le_mono_r; lia).
  lia.
Qed.

Lemma shr_m_of_loc (m : Z) (l : location) :
  shr_m (shr_record_of_loc m l) = m.
Proof. destruct l as [|[]]; reflexivity. Qed.

Lemma shr_1_half (mrs : shr_record) :
  0 <= shr_m mrs -> shr_m (shr_1 mrs) = shr_m mrs / 2.
Proof.
  destruct mrs as [m r s]. cbn [shr_m]. intro Hm.
  destruct m as [|p|p]; [reflexivity| |lia].
  destruct p as [p|p|]; cbn [shr_1 shr_m].
  - rewrite Pos2Z.inj_xI. apply Z.div_unique with (r := 1); lia.
  - rewrite Pos2Z.inj_xO. apply Z.div_unique with (r := 0); lia.
  - reflexivity.
Qed.

Lemma iter_pos_shr_1 (p : positive) :
  forall mrs, 0 <= shr_m mrs ->
    shr_m (iter_pos shr_1 p mrs) = shr_m mrs / 2 ^ Z.pos p.
Proof.
  induction p as [p IH|p IH|]; intros mrs Hm; cbn [iter_pos].
  - assert (H1 : 0 <= shr_m (shr_1 mrs)).
    { rewrite shr_1_half by assumption. apply Z.div_pos; lia. }
    assert (H2 : 0 <= shr_m (iter_pos shr_1 p (shr_1 mrs))).
    { rewrite IH by assumption. apply Z.div_pos; [lia|]. apply Z.pow_pos_nonneg; lia. }
    rewrite IH by assumption. rewrite IH by assumption.
    rewrite shr_1_half by assumption.
    rewrite !Z.div_div by (try apply Z.pow_pos_nonneg; lia).
    f_equal.
    replace (Z.pos p~1) with (1 + Z.pos p + Z.pos p) by lia.
    rewrite !Z.pow_add_r by lia. rewrite Z.pow_1_r. lia.
  - assert (H2 : 0 <= shr_m (iter_pos shr_1 p mrs)).
    { rewrite IH by assumption. apply Z.div_pos; [lia|]. apply Z.pow_pos_nonneg; lia. }
    rewrite IH by assumption. rewrite IH by assumption.
    rewrite !Z.div_div by (try apply Z.pow_pos_nonneg; lia).
    f_equal.
    replace (Z.pos p~0) with (Z.pos p + Z.pos p) by lia.
    rewrite !Z.pow_add_r by lia. reflexivity.
  - rewrite shr_1_half by assumption. reflexivity.
Qed.


(** The first step of a rounding: a positive mantissa is cut down to at
    most 53 digits, and stays positive. *)
Lemma shr_fexp_pos (m : positive) (e : Z) (l : location) :
  -1074 <= e ->
  exists mrs m',
    shr_fexp F64.prec F64.emax (Z.pos m) e l
    = (mrs, Z.max e (Z.pos (digits2_pos m) + e - 53))
    /\ shr_m mrs = Z.pos m'
    /\ Z.pos (digits2_pos m') <= 53
    /\ Z.pos m' <= Z.pos m.
Proof.
  intro He. pose proof (digits2_pos_bounds m) as [Hlo Hhi].
  unfold shr_fexp, fexp, emin, F64.prec, F64.emax. cbn [Zdigits2].
  set (d := Z.pos (digits2_pos m)) in *.
  replace (Z.pos 3 - 1024 - 53) with (-1074) by reflexivity.
  destruct (Z.max (d + e - 53) (-1074) - e) as [|p|p] eqn:Hn; unfold shr.
  - exists (shr_record_of_loc (Z.pos m) l), m.
    split; [f_equal; lia|]. split; [apply shr_m_of_loc|].
    split; [fold d; lia|lia].
  - assert (Hp : Z.pos p = d - 53) by lia.
    assert (H53 : 2 ^ d = 2 ^ Z.pos p * 2 ^ 53).
    { rewrite <- Z.pow_add_r by lia. f_equal. lia. }
    assert (H52 : 2 ^ (d - 1) = 2 ^ Z.pos p * 2 ^ 52).
    { rewrite <- Z.pow_add_r by lia. f_equal. lia. }
    assert (Hpos : 0 < 2 ^ Z.pos p) by (apply Z.pow_pos_nonneg; lia).
    assert (Hq : 2 ^ 52 <= Z.pos m / 2 ^ Z.pos p < 2 ^ 53).
    { split.
      - apply Z.div_le_lower_bound; [assumption|]. rewrite <- H52. exact Hlo.
      - apply Z.div_lt_upper_bound; [assumption|]. rewrite <- H53. exact Hhi. }
    destruct (Z.pos m / 2 ^ Z.pos p) as [|q|q] eqn:Hdiv;
      [change (2 ^ 52) with 4503599627370496 in Hq; lia| |lia].
    exists (iter_pos shr_1 p (shr_record_of_loc (Z.pos m) l)), q.
    split; [f_equal; lia|].
    split.
    { rewrite iter_pos_shr_1 by (rewrite shr_m_of_loc; lia).
      rewrite shr_m_of_loc. exact Hdiv. }
    split; [apply digits2_pos_le; apply Hq|].
    rewrite <- Hdiv. apply Z.div_le_upper_bound; [assumption|]. nia.
  - exists (shr_record_of_loc (Z.pos m) l), m.
    split; [f_equal; lia|]. split; [apply shr_m_of_loc|].
    split; [fold d; lia|lia].
Qed.

Lemma round_nearest_even_pos (m : positive) (l : location) :
  exists m', round_nearest_even (Z.pos m) l = Z.pos m'
             /\ Z.pos m <= Z.pos m' <= Z.pos m + 1.
Proof.
  destruct l as [|[]]; cbn [round_nearest_even].
  - exists m. lia.
  - destruct (Z.even (Z.pos m)); [exists m; lia|exists (m + 1)%positive; lia].
  - exists m. lia.
  - exists (m + 1)%positive. lia.
Qed.

(** Rounding a positive mantissa gives a finite number of the same sign,
    as long as the exponent stays in range. *)
Lemma binary_round_aux_finite (s : bool) (m : positive) (e : Z) (l : location) :
  -1074 <= e ->
  Z.max e (Z.pos (digits2_pos m) + e - 53) + 1 <= 971 ->
  exists m' e',
    binary_round_aux F64.prec F64.emax s (Z.pos m) e l = S754_finite s m' e'
    /\ Z.pos (digits2_pos m') <= 53
    /\ Z.max e (Z.pos (digits2_pos m) + e - 53) <= e'
       <= Z.max e (Z.pos (digits2_pos m) + e - 53) + 1.
Proof.
  intros He Hmax. unfold binary_round_aux.
  destruct (shr_fexp_pos m e l He) as [mrs1 [m1 [-> [Hm1 [Hd1 _]]]]].
  rewrite Hm1.
  destruct (round_nearest_even_pos m1 (loc_of_shr_record mrs1))
    as [m2 [-> Hm2]].
  set (e1 := Z.max e (Z.pos (digits2_pos m) + e - 53)) in *.
  assert (He1 : -1074 <= e1) by lia.
  destruct (shr_fexp_pos m2 e1 loc_Exact He1) as [mrs3 [m3 [-> [Hm3 [Hd3 _]]]]].
  rewrite Hm3.
  assert (Hd2 : Z.pos (digits2_pos m2) <= 54).
  { apply digits2_pos_le. pose proof (digits2_pos_bounds m1) as [_ Hhi].
    assert (2 ^ Z.pos (digits2_pos m1) <= 2 ^ 53)
      by (apply Z.pow_le_mono_r; lia).
    change (2 ^ 54) with (2 * 2 ^ 53).
    assert (0 < 2 ^ 53) by reflexivity. lia. }
  replace (Z.leb (Z.max e1 (Z.pos (digits2_pos m2) + e1 - 53))
                 (F64.emax - F64.prec)) with true.
  2:{ symmetry. apply Z.leb_le. unfold F64.emax, F64.prec. lia. }
  exists m3, (Z.max e1 (Z.pos (digits2_pos m2) + e1 - 53)).
  split; [reflexivity|]. split; [exact Hd3|]. lia.
Qed.

Lemma iter_xO_digits (m k : positive) :
  Z.pos (digits2_pos (Pos.iter xO m k)) = Z.pos (digits2_pos m) + Z.pos k.
Proof.
  induction k as [|k IH] using Pos.peano_ind.
  - cbn [Pos.iter digits2_pos]. lia.
  - rewrite Pos.iter_succ. cbn [digits2_pos]. lia.
Qed.

Lemma binary_round_finite (s : bool) (m : positive) :
  Z.pos m <= 2 ^ 63 ->
  finite_in s (-52) 12 (binary_round F64.prec F64.emax s m 0).
Proof.
  intro Hm.
  assert (Hd : Z.pos (digits2_pos m) <= 64).
  { apply digits2_pos_le. change (2 ^ 64) with (2 * 2 ^ 63).
    assert (0 < 2 ^ 63) by reflexivity. lia. }
  unfold binary_round, shl_align, fexp, emin, F64.prec, F64.emax.
  replace (Z.pos 3 - 1024 - 53) with (-1074) by reflexivity.
  set (d := Z.pos (digits2_pos m)) in *.
  assert (Hd1 : 1 <= d) by (unfold d; lia).
  destruct (Z.max (d + 0 - 53) (-1074) - 0) as [|p|p] eqn:Hn.
  - destruct (binary_round_aux_finite s m 0 loc_Exact) as [m' [e' [H [Hd' He']]]];
      [lia|fold d; lia|].
    unfold F64.prec, F64.emax in H. rewrite H.
    exists m', e'. split; [reflexivity|]. split; [exact Hd'|]. fold d in He'. lia.
  - destruct (binary_round_aux_finite s m 0 loc_Exact) as [m' [e' [H [Hd' He']]]];
      [lia|fold d; lia|].
    unfold F64.prec, F64.emax in H. rewrite H.
    exists m', e'. split; [reflexivity|]. split; [exact Hd'|]. fold d in He'. lia.
  - pose proof (iter_xO_digits m p) as Hdig. fold d in Hdig.
    destruct (binary_round_aux_finite s (Pos.iter xO m p)
                (Z.max (d + 0 - 53) (-1074)) loc_Exact)
      as [m' [e' [H [Hd' He']]]]; [lia|lia|].
    unfold F64.prec, F64.emax in H. rewrite H.
    exists m', e'. split; [reflexivity|]. split; [exact Hd'|]. lia.
Qed.

(** The conversion of an [int64] that is not 0. *)
Lemma of_Z_finite (z : Z) :
  z <> 0 -> - 2 ^ 63 <= z < 2 ^ 63 ->
  finite_in (z <? 0) (-52) 12 (F64.of_Z z).
Proof.
  intros Hz Hrange. unfold F64.of_Z, binary_normalize.
  destruct z as [|m|m]; [congruence| |].
  - apply binary_round_finite. lia.
  - apply binary_round_finite. lia.
Qed.

Lemma div_finite (sa sb : bool) (a b : F64.t) (lo1 hi1 lo2 hi2 : Z) :
  finite_in sa lo1 hi1 a -> finite_in sb lo2 hi2 b ->
  -900 <= lo1 - hi2 -> hi1 - lo2 <= 900 ->
  finite_in (xorb sa sb) (lo1 - hi2 - 105) (hi1 - lo2 + 1) (F64.div a b).
Proof.
  intros [m1 [e1 [-> [Hd1 He1]]]] [m2 [e2 [-> [Hd2 He2]]]] Hlo Hhi.
  unfold F64.div, SFdiv, SFdiv_core_binary, fexp, emin, F64.prec, F64.emax.
  cbn [Zdigits2].
  replace (Z.pos 3 - 1024 - 53) with (-1074) by reflexivity.
  pose proof (digits2_pos_bounds m1) as [Hlo1 Hhi1].
  pose proof (digits2_pos_bounds m2) as [Hlo2 Hhi2].
  set (d1 := Z.pos (digits2_pos m1)) in *.
  set (d2 := Z.pos (digits2_pos m2)) in *.
  assert (Hd1' : 1 <= d1) by (unfold d1; lia).
  assert (Hd2' : 1 <= d2) by (unfold d2; lia).
  set (e' := Z.min (Z.max (d1 + e1 - (d2 + e2) - 53) (-1074)) (e1 - e2)).
  assert (He' : e' = d1 + e1 - d2 - e2 - 53) by (unfold e'; lia).
  assert (Hs : e1 - e2 - e' = d2 - d1 + 53) by lia.
  destruct (e1 - e2 - e') as [|p|p] eqn:Hp; [lia| |lia].
  rewrite Z.shiftl_mul_pow2 by lia.
  pose proof (Z_div_mod (Z.pos m1 * 2 ^ Z.pos p) (Z.pos m2) eq_refl) as Hdiv.
  destruct (Z.div_eucl (Z.pos m1 * 2 ^ Z.pos p) (Z.pos m2)) as [q r].
  destruct Hdiv as [Heq Hr].
  (* the quotient has 53 or 54 digits *)
  assert (Hpow : 2 ^ (d1 - 1) * 2 ^ Z.pos p = 2 ^ (d2 - 1) * 2 ^ 53).
  { rewrite <- !Z.pow_add_r by lia. f_equal. lia. }
  assert (Hpow' : 2 ^ d1 * 2 ^ Z.pos p = 2 ^ (d2 - 1) * 2 ^ 54).
  { rewrite <- !Z.pow_add_r by lia. f_equal. lia. }
  assert (Hd2p : 2 ^ d2 = 2 * 2 ^ (d2 - 1)).
  { replace d2 with (Z.succ (d2 - 1)) at 1 by lia.
    apply Z.pow_succ_r. lia. }
  assert (HP : 0 < 2 ^ (d2 - 1)) by (apply Z.pow_pos_nonneg; lia).
  assert (H2p : 0 < 2 ^ Z.pos p) by (apply Z.pow_pos_nonneg; lia).
  change (2 ^ 53) with 9007199254740992 in Hpow.
  change (2 ^ 54) with 18014398509481984 in Hpow'.
  assert (Hq : 4503599627370496 <= q < 18014398509481984) by nia.
  destruct q as [|q|q]; [lia| |lia].
  assert (Hdq : 53 <= Z.pos (digits2_pos q) <= 54).
  { split.
    - apply digits2_pos_ge. change (2 ^ (53 - 1)) with 4503599627370496. lia.
    - apply digits2_pos_le. change (2 ^ 54) with 18014398509481984. lia. }
  destruct (binary_round_aux_finite (xorb sa sb) q e' (new_location (Z.pos m2) r))
    as [m' [e'' [H [Hd' He'']]]]; [lia|lia|].
  unfold F64.prec, F64.emax in H. rewrite H.
  exists m', e''. split; [reflexivity|]. split; [exact Hd'|]. lia.
Qed.

Lemma mul_finite (sa sb : bool) (a b : F64.t) (lo1 hi1 lo2 hi2 : Z) :
  finite_in sa lo1 hi1 a -> finite_in sb lo2 hi2 b ->
  -1074 <= lo1 + lo2 -> hi1 + hi2 <= 900 ->
  finite_in (xorb sa sb) (lo1 + lo2) (hi1 + hi2 + 54) (F64.mul a b).
Proof.
  intros [m1 [e1 [-> [Hd1 He1]]]] [m2 [e2 [-> [Hd2 He2]]]] Hlo Hhi.
  unfold F64.mul, SFmul.
  pose proof (digits2_pos_bounds m1) as [_ Hhi1].
  pose proof (digits2_pos_bounds m2) as [_ Hhi2].
  assert (Hd : Z.pos (digits2_pos (m1 * m2)) <= 106).
  { apply digits2_pos_le. rewrite Pos2Z.inj_mul.
    assert (H1 : 2 ^ Z.pos (digits2_pos m1) <= 2 ^ 53)
      by (apply Z.pow_le_mono_r; lia).
    assert (H2 : 2 ^ Z.pos (digits2_pos m2) <= 2 ^ 53)
      by (apply Z.pow_le_mono_r; lia).
    change (2 ^ 106) with (2 ^ 53 * 2 ^ 53).
    assert (0 < 2 ^ 53) by reflexivity. nia. }
  destruct (binary_round_aux_finite (xorb sa sb) (m1 * m2) (e1 + e2) loc_Exact)
    as [m' [e' [H [Hd' He']]]]; [lia|lia|].
  rewrite H.
  exists m', e'. split; [reflexivity|]. split; [exact Hd'|]. lia.
Qed.
End Binary64.

Section RoiCell.
Import Collector.

Lemma int64_100 : - 2 ^ 63 <= 100 < 2 ^ 63.
Proof. split; [discriminate | reflexivity]. Qed.

(** The roi of one row that passes the filter. *)
Lemma roi_of_finite (r : movie) :
  int64 (budget r) -> int64 (revenue r) ->
  0 < budget r -> 0 < revenue r ->
  (revenue r = budget r /\ roi_of r = S754_zero false)
  \/ (revenue r <> budget r
      /\ finite_in (revenue r <? budget r) (-221) 131 (roi_of r)).
Proof.
  intros Hb64 Hr64 Hb Hr. unfold roi_of.
  rewrite (wrap64_difference _ _ Hr64 Hb64 Hr Hb).
  assert (Hbud : finite_in false (-52) 12 (F64.of_Z (budget r))).
  { replace false with (budget r <? 0) by (apply Z.ltb_ge; lia).
    apply of_Z_finite; [lia | exact Hb64]. }
  assert (H100 : finite_in false (-52) 12 (F64.of_Z 100)).
  { apply (of_Z_finite 100); [discriminate | exact int64_100]. }
  destruct (Z.eq_dec (revenue r) (budget r)) as [Heq|Hne].
  - left. split; [exact Heq|].
    rewrite Heq, Z.sub_diag.
    destruct Hbud as [mb [eb [-> _]]]. destruct H100 as [mc [ec [-> _]]].
    reflexivity.
  - right. split; [exact Hne|].
    assert (Hp : finite_in (revenue r <? budget r) (-52) 12
                   (F64.of_Z (revenue r - budget r))).
    { replace (revenue r <? budget r) with (revenue r - budget r <? 0).
      - apply of_Z_finite; [lia|].
        unfold int64 in Hb64, Hr64.
        change (2 ^ 63) with 9223372036854775808 in *. lia.
      - destruct (Z.ltb_spec (revenue r - budget r) 0);
          destruct (Z.ltb_spec (revenue r) (budget r)); [reflexivity|lia|lia|reflexivity]. }
    pose proof (div_finite _ _ _ _ _ _ _ _ Hp Hbud) as Hdiv.
    rewrite xorb_false_r in Hdiv.
    assert (Hq : finite_in (revenue r <? budget r) (-52 - 12 - 105) (12 - -52 + 1)
                   (F64.div (F64.of_Z (revenue r - budget r))
                            (F64.of_Z (budget r))))
      by (apply Hdiv; lia).
    pose proof (mul_finite _ _ _ _ _ _ _ _ Hq H100) as Hmul.
    rewrite xorb_false_r in Hmul.
    apply Hmul; lia.
Qed.

Variable to_datetime_year : list value -> result (list value).
Hypothesis to_datetime_year_length :
  forall column ys,
    to_datetime_year column = Ok ys ->
    Datatypes.length ys = Datatypes.length column.

(** X21. The budget filter is what keeps the roi column clean: in every
    row of the table the collector writes, the [roi] cell is a finite
    float, never NaN and never an infinity; it is below 0 exactly when
    the profit is negative, above 0 exactly when the profit is positive,
    and it is zero exactly when the revenue equals the budget. *)
Theorem main_table_roi_finite (df : list movie) (out : list retained) :
  Forall (fun r => int64 (budget r) /\ int64 (revenue r)) df ->
  main_table to_datetime_year df = Ok out ->
  forall r, In r out ->
    is_finite (roi r) = true
    /\ F64.ltb (roi r) (F64.of_Z 0) = (profit r <? 0)
    /\ F64.ltb (F64.of_Z 0) (roi r) = (0 <? profit r)
    /\ F64.is_zero (roi r) = (revenue (row r) =? budget (row r)).
Proof.
  intros Hdf H r Hin.
  pose proof (main_table_inv _ to_datetime_year_length _ _ H)
    as [ys [Hlen Hout]].
  assert (Hrow : In (row r) (filter keep df)).
  { rewrite <- (add_columns_rows _ _ Hlen), <- Hout. apply in_map. exact Hin. }
  apply filter_In in Hrow. destruct Hrow as [Hrdf Hkeep].
  apply keep_positive in Hkeep. destruct Hkeep as [Hb Hr].
  rewrite Forall_forall in Hdf. destruct (Hdf _ Hrdf) as [Hb64 Hr64].
  rewrite Hout in Hin. apply add_columns_roi in Hin.
  destruct Hin as [Hroi Hprofit].
  assert (Hp : profit r = revenue (row r) - budget (row r)).
  { rewrite Hprofit. unfold profit_of.
    apply wrap64_difference; assumption. }
  rewrite Hroi, Hp.
  destruct (roi_of_finite (row r) Hb64 Hr64 Hb Hr)
    as [[Heq ->] | [Hne [m [e [-> _]]]]].
  - rewrite Heq, Z.sub_diag, Z.eqb_refl.
    repeat split; reflexivity.
  - split; [reflexivity|].
    assert (Hlt : (revenue (row r) - budget (row r) <? 0)
                  = (revenue (row r) <? budget (row r))).
    { destruct (Z.ltb_spec (revenue (row r) - budget (row r)) 0);
        destruct (Z.ltb_spec (revenue (row r)) (budget (row r)));
        [reflexivity|lia|lia|reflexivity]. }
    assert (Hgt : (0 <? revenue (row r) - budget (row r))
                  = negb (revenue (row r) <? budget (row r))).
    { destruct (Z.ltb_spec 0 (revenue (row r) - budget (row r)));
        destruct (Z.ltb_spec (revenue (row r)) (budget (row r)));
        [lia|reflexivity|reflexivity|lia]. }
    rewrite Hlt, Hgt.
    replace (revenue (row r) =? budget (row r)) with false
      by (symmetry; apply Z.eqb_neq; exact Hne).
    destruct (revenue (row r) <? budget (row r)); repeat split; reflexivity.
Qed.

End RoiCell.

Lemma main_table_roi_finite_witness :
  Forall (fun r => Collector.int64 (Collector.budget r)
                   /\ Collector.int64 (Collector.revenue r))
         three_movies
  /\ Collector.main_table year_2019 three_movies = Ok two_retained
  /\ forall r, In r two_retained ->
       is_finite (Collector.roi r) = true
       /\ F64.ltb (Collector.roi r) (F64.of_Z 0) = (Collector.profit r <? 0)
       /\ F64.ltb (F64.of_Z 0) (Collector.roi r) = (0 <? Collector.profit r)
       /\ F64.is_zero (Collector.roi r)
          = (Collector.revenue (Collector.row r)
             =? Collector.budget (Collector.row r)).
Proof.
  split; [exact three_movies_int64|].
  split; [exact main_table_three_movies|].
  exact (main_table_roi_finite year_2019 year_2019_length
           three_movies two_retained
           three_movies_int64 main_table_three_movies).
Defined.


(* ================================================================== *)
(** * Further properties: the whole run of the collector *)
(* ================================================================== *)

Section CollectorRun.
Import Collector.
Variable net : network.
Variable self : config.

Lemma quiet_get_genres : quiet (get_genres net self).
Proof.
  intro log. unfold get_genres, bind, call, requests_get, lift, ret, calls.
  fold (request_for self GenreList).
  exists [request_for self GenreList].
  destruct (net _ _) as [|data]; cbn [snd]; split; reflexivity.
Qed.

Lemma first_pages_length (max_pages : Z) (yk : Z * nat) :
  (Datatypes.length (first_pages max_pages yk) <= Z.to_nat max_pages)%nat.
Proof.
  unfold first_pages. rewrite length_map, length_firstn.
  etransitivity; [apply Nat.le_min_r|].
  unfold Py.range. rewrite length_map, length_seq.
  replace (max_pages + 1 - 1) with max_pages by lia. apply Nat.le_refl.
Qed.

Lemma flat_map_first_pages_length (max_pages : Z) (l : list (Z * nat)) :
  (Datatypes.length (flat_map (first_pages max_pages) l)
   <= Datatypes.length l * Z.to_nat max_pages)%nat.
Proof.
  induction l as [|yk l IH]; [apply Nat.le_refl|].
  cbn [flat_map Datatypes.length]. rewrite length_app.
  pose proof (first_pages_length max_pages yk). lia.
Qed.

(** The loop over the years: the pages of one year after those of the
    year before, for the years the loop reaches. *)
Lemma collect_years_discoveries (ys : list Z) :
  forall all_movies log, exists more ks,
    calls (collect_years net self ys all_movies log) = log ++ more
    /\ (Datatypes.length ks <= Datatypes.length ys)%nat
    /\ discoveries more
       = flat_map (first_pages max_pages_per_year) (combine ys ks).
Proof.
  induction ys as [|year rest IH]; intros all_movies log.
  - exists [], []. cbn [collect_years]. unfold ret, calls. cbn [snd].
    split; [symmetry; apply app_nil_r|]. split; [apply Nat.le_refl | reflexivity].
  - cbn [collect_years]. unfold bind, calls, collect_year_data.
    destruct (asks_collect_pages net self year
                (Py.range 1 (max_pages_per_year + 1)) [] log)
      as [more [k [Hmore Hk]]].
    unfold calls in Hmore.
    destruct (collect_pages net self year _ [] log) as [[year_movies|e] log1];
      cbn [snd] in Hmore; subst log1.
    + destruct (IH (all_movies ++ year_movies) (log ++ more))
        as [more' [ks [Hmore' [Hlen Hks]]]].
      unfold calls in Hmore'.
      exists (more ++ more'), (k :: ks).
      split; [rewrite Hmore'; symmetry; apply app_assoc|].
      split; [cbn [Datatypes.length]; lia|].
      rewrite discoveries_app, Hk, Hks. reflexivity.
    + exists more, [k]. cbn [snd].
      split; [reflexivity|]. split; [cbn [Datatypes.length]; lia|].
      rewrite Hk. destruct rest; cbn [combine flat_map];
        symmetry; apply app_nil_r.
Qed.

(** X22. Whatever the service answers, and whether the run ends or stops
    on an exception, the discovery calls of [main] are those of the years
    2019 to 2024 in this order, as far as the run gets, and for each
    year the pages 1, 2, ... up to some page that is at most 5: no year
    is asked for out of order or twice, and a run issues at most 30
    discovery calls. *)
Theorem main_discovery_calls (log : list request) :
  exists more ks,
    calls (main net self log) = log ++ more
    /\ (Datatypes.length ks <= 6)%nat
    /\ discoveries more
       = flat_map (first_pages 5)
           (combine [2019; 2020; 2021; 2022; 2023; 2024] ks)
    /\ (Datatypes.length (discoveries more) <= 30)%nat.
Proof.
  unfold main, collect_all, bind, calls.
  destruct (quiet_get_genres log) as [more [Hmore Hq]].
  unfold calls in Hmore.
  destruct (get_genres net self log) as [[genres|e] log1];
    cbn [snd] in Hmore; subst log1.
  - destruct (collect_years_discoveries years [] (log ++ more))
      as [more' [ks [Hmore' [Hlen Hks]]]].
    unfold calls in Hmore'.
    assert (Hd : discoveries (more ++ more')
                 = flat_map (first_pages 5)
                     (combine [2019; 2020; 2021; 2022; 2023; 2024] ks)).
    { rewrite discoveries_app, Hq, Hks. reflexivity. }
    exists (more ++ more'), ks.
    split; [rewrite Hmore'; symmetry; apply app_assoc|].
    split; [exact Hlen|]. split; [exact Hd|].
    rewrite Hd.
    etransitivity; [apply flat_map_first_pages_length|].
    rewrite length_combine.
    change (Z.to_nat 5) with 5%nat.
    change (Datatypes.length [2019; 2020; 2021; 2022; 2023; 2024]) with 6%nat.
    lia.
  - exists more, []. cbn [snd].
    split; [reflexivity|]. split; [cbn [Datatypes.length]; lia|].
    rewrite Hq. split; [reflexivity | cbn [Datatypes.length]; lia].
Qed.

End CollectorRun.


(* ================================================================== *)
(** * Further properties: the records of a run *)
(* ================================================================== *)

Section Backed.

Lemma details_app (l l' : list request) :
  details (l ++ l') = details l ++ details l'.
Proof. apply flat_map_app. Qed.

Lemma from_calls_app_l (more more' : list request) (row : dict) :
  from_calls more row -> from_calls (more ++ more') row.
Proof.
  intros [Hcols [movie_id [Hid Hin]]]. split; [exact Hcols|].
  exists movie_id. split; [exact Hid|].
  rewrite details_app. apply in_or_app. left. exact Hin.
Qed.

Lemma from_calls_app_r (more more' : list request) (row : dict) :
  from_calls more' row -> from_calls (more ++ more') row.
Proof.
  intros [Hcols [movie_id [Hid Hin]]]. split; [exact Hcols|].
  exists movie_id. split; [exact Hid|].
  rewrite details_app. apply in_or_app. right. exact Hin.
Qed.

Lemma backed_nil (more : list request) : backed more [].
Proof. split; [constructor | apply Nat.le_0_l]. Qed.

Lemma backed_app (more more' : list request) (rows rows' : list dict) :
  backed more rows -> backed more' rows' ->
  backed (more ++ more') (rows ++ rows').
Proof.
  intros [Hrows Hlen] [Hrows' Hlen']. split.
  - apply Forall_app. split.
    + eapply Forall_impl; [|exact Hrows].
      intros row. apply from_calls_app_l.
    + eapply Forall_impl; [|exact Hrows'].
      intros row. apply from_calls_app_r.
  - rewrite details_app, !length_app. lia.
Qed.

End Backed.

Section CollectorRows.
Import Collector.
Variable net : network.
Variable self : config.

Lemma movie_data_from_call (movie_id details : value) (row : dict) :
  movie_data movie_id details = Ok row ->
  backed [request_for self (MovieDetails movie_id)] [row].
Proof.
  intro H. apply movie_data_shape in H.
  destruct H as (d & genre_ids & genres & primary & top3 & companies
                 & countries & _ & _ & _ & _ & _ & _ & _ & ->).
  split; [|apply Nat.le_refl].
  constructor; [|constructor]. split; [reflexivity|].
  exists movie_id. split; [reflexivity | left; reflexivity].
Qed.

Lemma collect_movies_backed (movies : list value) :
  forall movies_data log out log',
    collect_movies net self movies movies_data log = (Ok out, log') ->
    exists more new,
      log' = log ++ more /\ out = movies_data ++ new /\ backed more new.
Proof.
  induction movies as [|movie rest IH]; intros movies_data log out log' H.
  - cbn [collect_movies] in H. unfold ret in H. injection H as <- <-.
    exists [], []. rewrite !app_nil_r.
    split; [reflexivity|]. split; [reflexivity | apply backed_nil].
  - cbn [collect_movies] in H.
    apply bind_ok in H. destruct H as (movie_id & log1 & Hid & H).
    apply lift_ok in Hid. destruct Hid as [Hid ->].
    apply bind_ok in H. destruct H as (details & log2 & Hdetails & H).
    destruct (get_movie_details_one_call net self movie_id log)
      as [details' Hcall].
    rewrite Hcall in Hdetails. injection Hdetails as -> <-.
    destruct (Py.truthy details).
    + apply bind_ok in H. destruct H as (row & log3 & Hrow & H).
      apply lift_ok in Hrow. destruct Hrow as [Hrow ->].
      apply IH in H. destruct H as (more & new & -> & -> & Hback).
      exists ([request_for self (MovieDetails movie_id)] ++ more),
             ([row] ++ new).
      split; [rewrite <- app_assoc; reflexivity|].
      split; [rewrite <- app_assoc; reflexivity|].
      apply backed_app; [|exact Hback].
      apply (movie_data_from_call _ _ _ Hrow).
    + apply IH in H. destruct H as (more & new & -> & -> & Hback).
      exists ([request_for self (MovieDetails movie_id)] ++ more),
             ([] ++ new).
      split; [rewrite <- app_assoc; reflexivity|].
      split; [reflexivity|].
      apply backed_app; [apply backed_nil | exact Hback].
Qed.

Lemma collect_pages_backed (year : Z) (pages : list Z) :
  forall movies_data log out log',
    collect_pages net self year pages movies_data log = (Ok out, log') ->
    exists more new,
      log' = log ++ more /\ out = movies_data ++ new /\ backed more new.
Proof.
  induction pages as [|page rest IH]; intros movies_data log out log' H.
  - cbn [collect_pages] in H. unfold ret in H. injection H as <- <-.
    exists [], []. rewrite !app_nil_r.
    split; [reflexivity|]. split; [reflexivity | apply backed_nil].
  - cbn [collect_pages] in H.
    apply bind_ok in H. destruct H as (discover_results & log1 & Hd & H).
    destruct (discover_movies_one_call net self year page log)
      as [results Hcall].
    rewrite Hcall in Hd. injection Hd as -> <-.
    set (asked := request_for self (Discover year page)) in *.
    assert (Hstop : forall data l,
               ret movies_data (log ++ [asked]) = (Ok data, l) ->
               exists more new,
                 l = log ++ more /\ data = movies_data ++ new
                 /\ backed more new).
    { intros data l Hret. unfold ret in Hret. injection Hret as <- <-.
      exists [asked], []. rewrite app_nil_r.
      split; [reflexivity|]. split; [reflexivity | apply backed_nil]. }
    destruct (negb (Py.truthy discover_results)); [exact (Hstop _ _ H)|].
    apply bind_ok in H. destruct H as (has & log2 & Hhas & H).
    apply lift_ok in Hhas. destruct Hhas as [_ ->].
    destruct (negb has); [exact (Hstop _ _ H)|].
    apply bind_ok in H. destruct H as (listed & log3 & Hlisted & H).
    apply lift_ok in Hlisted. destruct Hlisted as [_ ->].
    apply bind_ok in H. destruct H as (movies & log4 & Hmovies & H).
    apply lift_ok in Hmovies. destruct Hmovies as [_ ->].
    apply bind_ok in H. destruct H as (movies_data' & log5 & Hcm & H).
    apply collect_movies_backed in Hcm.
    destruct Hcm as (more1 & new1 & -> & -> & Hback1).
    apply bind_ok in H. destruct H as (total & log6 & Htotal & H).
    apply lift_ok in Htotal. destruct Htotal as [_ ->].
    apply bind_ok in H. destruct H as (last & log7 & Hlast & H).
    apply lift_ok in Hlast. destruct Hlast as [_ ->].
    destruct last.
    + unfold ret in H. injection H as <- <-.
      exists ([asked] ++ more1), ([] ++ new1).
      split; [rewrite <- app_assoc; reflexivity|].
      split; [reflexivity|].
      apply backed_app; [apply backed_nil | exact Hback1].
    + apply IH in H. destruct H as (more2 & new2 & -> & -> & Hback2).
      exists ([asked] ++ more1 ++ more2), ([] ++ new1 ++ new2).
      split; [rewrite <- !app_assoc; reflexivity|].
      split; [rewrite <- app_assoc; reflexivity|].
      apply backed_app; [apply backed_nil|].
      apply backed_app; assumption.
Qed.

Lemma collect_years_backed (ys : list Z) :
  forall all_movies log out log',
    collect_years net self ys all_movies log = (Ok out, log') ->
    exists more new,
      log' = log ++ more /\ out = all_movies ++ new /\ backed more new.
Proof.
  induction ys as [|year rest IH]; intros all_movies log out log' H.
  - cbn [collect_years] in H. unfold ret in H. injection H as <- <-.
    exists [], []. rewrite !app_nil_r.
    split; [reflexivity|]. split; [reflexivity | apply backed_nil].
  - cbn [collect_years] in H.
    apply bind_ok in H. destruct H as (year_movies & log1 & Hyear & H).
    unfold collect_year_data in Hyear.
    apply collect_pages_backed in Hyear.
    destruct Hyear as (more1 & new1 & -> & -> & Hback1).
    apply IH in H. destruct H as (more2 & new2 & -> & -> & Hback2).
    exists (more1 ++ more2), (new1 ++ new2).
    split; [rewrite <- app_assoc; reflexivity|].
    split; [cbn [app]; rewrite <- app_assoc; reflexivity|].
    apply backed_app; assumption.
Qed.

(** X23. When the collection of [main] returns, every record it returns
    has the seventeen columns of a record, in their order, and carries
    the identifier of a film whose details were asked for in this run;
    there are no more records than calls for details.  So the table
    built from the records has the columns the cleaning step reads. *)
Theorem main_records_from_calls
  (log : list request) (all_movies : list dict) (log' : list request) :
  main net self log = (Ok all_movies, log') ->
  exists more,
    log' = log ++ more
    /\ Forall (from_calls more) all_movies
    /\ (Datatypes.length all_movies <= Datatypes.length (details more))%nat.
Proof.
  unfold main, collect_all. intro H.
  apply bind_ok in H. destruct H as (genres & log1 & Hgenres & H).
  destruct (quiet_get_genres net self log) as [more0 [Hmore0 _]].
  unfold calls in Hmore0. rewrite Hgenres in Hmore0. cbn [snd] in Hmore0.
  subst log1.
  apply collect_years_backed in H.
  destruct H as (more & new & -> & -> & Hback).
  exists (more0 ++ more). split; [rewrite <- app_assoc; reflexivity|].
  cbn [app]. apply (backed_app more0 more [] new); [apply backed_nil | exact Hback].
Qed.

End CollectorRows.

Lemma main_records_from_calls_witness :
  exists all_movies log',
    Collector.main one_film_a_year example_env [] = (Ok all_movies, log')
    /\ Datatypes.length all_movies = 6%nat
    /\ exists more,
        log' = [] ++ more
        /\ Forall (from_calls more) all_movies
        /\ (Datatypes.length all_movies
            <= Datatypes.length (details more))%nat.
Proof.
  eexists. eexists. split; [reflexivity|]. split; [reflexivity|].
  exact (main_records_from_calls one_film_a_year example_env [] _ _ eq_refl).
Defined.
